(** * WebGL math shaders: the shader templater, the pipeline binder and the
    video-export controller of the shader playground.

    The development embeds three source files of the repository:
    - [src/shader.js], the playground without video export;
    - [src/unnamed/part_000], the playground exporting through CCapture;
    - [src/unnamed/part_001], the playground exporting through MediaRecorder.

    JavaScript numbers are IEEE-754 binary64 values, modelled by Rocq's
    primitive floats, so every numeric definition below evaluates.  What a
    method does to the browser (WebGL calls, timers, the recorder, the
    console, the download) is kept as a log of effects beside the state of
    the [ShaderPlayground] instance; what the browser answers (compile and
    link status, clock readings, codec support) is an input. *)

From Stdlib Require Import ZArith List String Ascii Bool Lia.
From Stdlib Require Import PrimFloat FloatOps FloatAxioms SpecFloat Uint63.
From Stdlib Require Import Reals Lra Machin.
Import ListNotations.
Local Open Scope string_scope.

(** * JavaScript values and built-ins used by the sources *)

Module JS.

(** [x || d] for a variable that holds a string or is still [undefined]:
    [undefined] and the empty string are falsy. *)
Definition or_string (x : option string) (d : string) : string :=
  match x with
  | Some s => if String.eqb s "" then d else s
  | None => d
  end.

(** [s.includes(pat)]: [pat] occurs in [s] as a contiguous block. *)
Fixpoint includes (pat s : string) : bool :=
  String.prefix pat s ||
  match s with
  | EmptyString => false
  | String _ s' => includes pat s'
  end.

(** The number of positions of [s] at which [pat] occurs. *)
Fixpoint occurrences (pat s : string) : nat :=
  (if String.prefix pat s then 1 else 0) +
  match s with
  | EmptyString => 0
  | String _ s' => occurrences pat s'
  end.

(** [Math.PI], the binary64 value nearest to pi. *)
Definition Math_PI : float := 0x1.921fb54442d18p+1%float.

(** An integer as a Number (exact up to 2^53 in magnitude); the sign of a
    zero result is the sign [s] of the argument it was rounded from. *)
Definition integral (s : bool) (n : Z) : float :=
  SF2Prim match n with
          | Z0 => S754_zero s
          | Zpos p => S754_finite false p 0
          | Zneg p => S754_finite true p 0
          end.

(** [Math.ceil(x)]: the least integral Number not below [x]; zeros,
    infinities, NaN and integral values are returned as they are.  A finite
    [x] is [(-1)^s * m * 2^e]; with [e >= 0] it is integral. *)
Definition Math_ceil (x : float) : float :=
  match Prim2SF x with
  | S754_finite s m e =>
      if (0 <=? e)%Z then x
      else integral s (- ((- cond_Zopp s (Zpos m)) / 2 ^ (- e)))%Z
  | _ => x
  end.

(** [Math.round(x)]: the integral Number nearest to [x], ties towards
    +infinity, that is the floor of [x + 1/2] taken exactly. *)
Definition Math_round (x : float) : float :=
  match Prim2SF x with
  | S754_finite s m e =>
      if (0 <=? e)%Z then x
      else integral s ((2 * cond_Zopp s (Zpos m) + 2 ^ (- e)) / 2 ^ (- e + 1))%Z
  | _ => x
  end.

(** [String(b)], the text [localStorage.setItem] stores for a boolean. *)
Definition String_of_boolean (b : bool) : string :=
  if b then "true" else "false".

(** A template literal or string shown to the user or logged: its pieces in
    order, a number substituted by [${...}] kept as the number, and the event
    object [console.error] receives kept with its [e.error?.message]. *)
Inductive Piece :=
| Str (s : string)
| Num (x : float)
| ErrorEvent (message : option string).

Definition text := list Piece.

End JS.
Import JS.

(** The five case labels of the [switch] in [generateFragmentShader]. *)
Inductive Variation := rocaille | liquid | electric | kaleidoscope | alien.

Definition tag (v : Variation) : string :=
  match v with
  | rocaille => "rocaille"
  | liquid => "liquid"
  | electric => "electric"
  | kaleidoscope => "kaleidoscope"
  | alien => "alien"
  end.

(** [v] is none of the five case labels. *)
Definition unknown_tag (v : string) : Prop :=
  forall w : Variation, v <> tag w.

(** * The browser: WebGL, timers, the recorders and the page *)

(** Identity of an object the browser hands out (shader, program, buffer,
    recorder). *)
Definition handle := nat.

Inductive ShaderType := VERTEX_SHADER | FRAGMENT_SHADER.

(** The eight uniforms of the fragment shader, the keys of [this.uniforms]. *)
Inductive UniformName :=
| iResolution | iTime | iSpeed | iZoom
| iWarpStrength | iGlowSharpness | iColorPhase | iIterations.

(** A [WebGLUniformLocation] of a program, or [null] / [undefined]. *)
Definition location := option (handle * nat).

(** What the WebGL implementation answers for given shader sources. *)
Record GLDriver := {
  COMPILE_STATUS : ShaderType -> string -> bool;
  getShaderInfoLog : ShaderType -> string -> string;
  LINK_STATUS : string -> string -> bool;
  getProgramInfoLog : string -> string -> string;
  getAttribLocation : string -> string -> Z;
  getUniformLocation : string -> string -> UniformName -> option nat
}.

(** The WebGL calls that change the context; a uniform call carries the key
    of [this.uniforms] its location was read from. *)
Inductive GLCall :=
| deleteProgram (p : handle)
| createShader (ty : ShaderType) (sh : handle)
| shaderSource (sh : handle) (src : string)
| compileShader (sh : handle)
| createProgram (p : handle)
| attachShader (p sh : handle)
| linkProgram (p : handle)
| useProgram (p : handle)
| createBuffer (b : handle)
| bindBuffer (b : option handle)
| bufferData (data : list float)
| enableVertexAttribArray (index : Z)
| vertexAttribPointer (index : Z) (size : Z)
| clearColor (r g b a : float)
| clear
| uniform2f (u : UniformName) (loc : location) (x y : float)
| uniform1f (u : UniformName) (loc : location) (x : float)
| drawArrays (first count : Z)
| viewport (x y width height : float)
| finish.

(** The functions the sources hand to [requestAnimationFrame] and
    [setTimeout]. *)
Inductive Callback :=
| CbRender
| CbExportRender
| CbCaptureFrames
| CbExportDone
| CbClearInfo.

Definition Blob := string.

Inductive Effect :=
| GL (c : GLCall)
| console_error (args : text)
| console_log (args : text)
| requestAnimationFrame (cb : Callback)
| setTimeout (cb : Callback) (delay : float)
| new_CCapture (c : handle) (framerate quality : float) (name : text)
| capturer_start (c : option handle)
| capturer_capture (c : option handle)
| capturer_stop (c : option handle)
| capturer_save (c : option handle)
| captureStream (frameRate : float)
| new_MediaRecorder (r : handle) (mimeType : string) (videoBitsPerSecond : float)
| mediaRecorder_start (r : option handle)
| mediaRecorder_stop (r : option handle)
| track_requestFrame
| download (filename : text) (parts : list Blob) (type : string).

(** [this.params]. *)
Record Params := {
  variation : string;
  speed : float;
  zoom : float;
  warpStrength : float;
  glowSharpness : float;
  colorPhase : float;
  iterations : float
}.

(** The export button: its [recording] class and its [disabled] property. *)
Record Button := {
  recording : bool;
  disabled : bool
}.

(** The progress line: its text and its [active] class. *)
Record Info := {
  textContent : text;
  active : bool
}.

(** The [ShaderPlayground] instance with the page elements its export
    methods write.  The record holds the properties of the three files
    together; a property a file never assigns keeps its value there. *)
Record State := {
  params : Params;
  startTime : float;
  program : option handle;
  uniforms : UniformName -> location;
  positionBuffer : option handle;
  canvas_width : float;
  canvas_height : float;
  isExporting : bool;
  exportFrameCount : float;
  currentFrame : float;
  capturer : option handle;
  exportTime : float;
  exportDuration : float;
  mediaRecorder : option handle;
  recordedChunks : list Blob;
  recordBtn : Button;
  recordText : text;
  recordInfo : Info;
  nextObject : handle
}.

(** Assignment to one property. *)

Definition set_params v (s : State) : State :=
  Build_State v (startTime s) (program s) (uniforms s) (positionBuffer s)
    (canvas_width s) (canvas_height s) (isExporting s) (exportFrameCount s)
    (currentFrame s) (capturer s) (exportTime s) (exportDuration s)
    (mediaRecorder s) (recordedChunks s) (recordBtn s) (recordText s)
    (recordInfo s) (nextObject s).

Definition set_startTime v (s : State) : State :=
  Build_State (params s) v (program s) (uniforms s) (positionBuffer s)
    (canvas_width s) (canvas_height s) (isExporting s) (exportFrameCount s)
    (currentFrame s) (capturer s) (exportTime s) (exportDuration s)
    (mediaRecorder s) (recordedChunks s) (recordBtn s) (recordText s)
    (recordInfo s) (nextObject s).

Definition set_program v (s : State) : State :=
  Build_State (params s) (startTime s) v (uniforms s) (positionBuffer s)
    (canvas_width s) (canvas_height s) (isExporting s) (exportFrameCount s)
    (currentFrame s) (capturer s) (exportTime s) (exportDuration s)
    (mediaRecorder s) (recordedChunks s) (recordBtn s) (recordText s)
    (recordInfo s) (nextObject s).

Definition set_uniforms v (s : State) : State :=
  Build_State (params s) (startTime s) (program s) v (positionBuffer s)
    (canvas_width s) (canvas_height s) (isExporting s) (exportFrameCount s)
    (currentFrame s) (capturer s) (exportTime s) (exportDuration s)
    (mediaRecorder s) (recordedChunks s) (recordBtn s) (recordText s)
    (recordInfo s) (nextObject s).

Definition set_positionBuffer v (s : State) : State :=
  Build_State (params s) (startTime s) (program s) (uniforms s) v
    (canvas_width s) (canvas_height s) (isExporting s) (exportFrameCount s)
    (currentFrame s) (capturer s) (exportTime s) (exportDuration s)
    (mediaRecorder s) (recordedChunks s) (recordBtn s) (recordText s)
    (recordInfo s) (nextObject s).

Definition set_canvas_width v (s : State) : State :=
  Build_State (params s) (startTime s) (program s) (uniforms s)
    (positionBuffer s) v (canvas_height s) (isExporting s) (exportFrameCount
    s) (currentFrame s) (capturer s) (exportTime s) (exportDuration s)
    (mediaRecorder s) (recordedChunks s) (recordBtn s) (recordText s)
    (recordInfo s) (nextObject s).

Definition set_canvas_height v (s : State) : State :=
  Build_State (params s) (startTime s) (program s) (uniforms s)
    (positionBuffer s) (canvas_width s) v (isExporting s) (exportFrameCount
    s) (currentFrame s) (capturer s) (exportTime s) (exportDuration s)
    (mediaRecorder s) (recordedChunks s) (recordBtn s) (recordText s)
    (recordInfo s) (nextObject s).

Definition set_isExporting v (s : State) : State :=
  Build_State (params s) (startTime s) (program s) (uniforms s)
    (positionBuffer s) (canvas_width s) (canvas_height s) v
    (exportFrameCount s) (currentFrame s) (capturer s) (exportTime s)
    (exportDuration s) (mediaRecorder s) (recordedChunks s) (recordBtn s)
    (recordText s) (recordInfo s) (nextObject s).

Definition set_exportFrameCount v (s : State) : State :=
  Build_State (params s) (startTime s) (program s) (uniforms s)
    (positionBuffer s) (canvas_width s) (canvas_height s) (isExporting s) v
    (currentFrame s) (capturer s) (exportTime s) (exportDuration s)
    (mediaRecorder s) (recordedChunks s) (recordBtn s) (recordText s)
    (recordInfo s) (nextObject s).

Definition set_currentFrame v (s : State) : State :=
  Build_State (params s) (startTime s) (program s) (uniforms s)
    (positionBuffer s) (canvas_width s) (canvas_height s) (isExporting s)
    (exportFrameCount s) v (capturer s) (exportTime s) (exportDuration s)
    (mediaRecorder s) (recordedChunks s) (recordBtn s) (recordText s)
    (recordInfo s) (nextObject s).

Definition set_capturer v (s : State) : State :=
  Build_State (params s) (startTime s) (program s) (uniforms s)
    (positionBuffer s) (canvas_width s) (canvas_height s) (isExporting s)
    (exportFrameCount s) (currentFrame s) v (exportTime s) (exportDuration
    s) (mediaRecorder s) (recordedChunks s) (recordBtn s) (recordText s)
    (recordInfo s) (nextObject s).

Definition set_exportTime v (s : State) : State :=
  Build_State (params s) (startTime s) (program s) (uniforms s)
    (positionBuffer s) (canvas_width s) (canvas_height s) (isExporting s)
    (exportFrameCount s) (currentFrame s) (capturer s) v (exportDuration s)
    (mediaRecorder s) (recordedChunks s) (recordBtn s) (recordText s)
    (recordInfo s) (nextObject s).

Definition set_exportDuration v (s : State) : State :=
  Build_State (params s) (startTime s) (program s) (uniforms s)
    (positionBuffer s) (canvas_width s) (canvas_height s) (isExporting s)
    (exportFrameCount s) (currentFrame s) (capturer s) (exportTime s) v
    (mediaRecorder s) (recordedChunks s) (recordBtn s) (recordText s)
    (recordInfo s) (nextObject s).

Definition set_mediaRecorder v (s : State) : State :=
  Build_State (params s) (startTime s) (program s) (uniforms s)
    (positionBuffer s) (canvas_width s) (canvas_height s) (isExporting s)
    (exportFrameCount s) (currentFrame s) (capturer s) (exportTime s)
    (exportDuration s) v (recordedChunks s) (recordBtn s) (recordText s)
    (recordInfo s) (nextObject s).

Definition set_recordedChunks v (s : State) : State :=
  Build_State (params s) (startTime s) (program s) (uniforms s)
    (positionBuffer s) (canvas_width s) (canvas_height s) (isExporting s)
    (exportFrameCount s) (currentFrame s) (capturer s) (exportTime s)
    (exportDuration s) (mediaRecorder s) v (recordBtn s) (recordText s)
    (recordInfo s) (nextObject s).

Definition set_recordBtn v (s : State) : State :=
  Build_State (params s) (startTime s) (program s) (uniforms s)
    (positionBuffer s) (canvas_width s) (canvas_height s) (isExporting s)
    (exportFrameCount s) (currentFrame s) (capturer s) (exportTime s)
    (exportDuration s) (mediaRecorder s) (recordedChunks s) v (recordText s)
    (recordInfo s) (nextObject s).

Definition set_recordText v (s : State) : State :=
  Build_State (params s) (startTime s) (program s) (uniforms s)
    (positionBuffer s) (canvas_width s) (canvas_height s) (isExporting s)
    (exportFrameCount s) (currentFrame s) (capturer s) (exportTime s)
    (exportDuration s) (mediaRecorder s) (recordedChunks s) (recordBtn s) v
    (recordInfo s) (nextObject s).

Definition set_recordInfo v (s : State) : State :=
  Build_State (params s) (startTime s) (program s) (uniforms s)
    (positionBuffer s) (canvas_width s) (canvas_height s) (isExporting s)
    (exportFrameCount s) (currentFrame s) (capturer s) (exportTime s)
    (exportDuration s) (mediaRecorder s) (recordedChunks s) (recordBtn s)
    (recordText s) v (nextObject s).

Definition set_nextObject v (s : State) : State :=
  Build_State (params s) (startTime s) (program s) (uniforms s)
    (positionBuffer s) (canvas_width s) (canvas_height s) (isExporting s)
    (exportFrameCount s) (currentFrame s) (capturer s) (exportTime s)
    (exportDuration s) (mediaRecorder s) (recordedChunks s) (recordBtn s)
    (recordText s) (recordInfo s) v.

(** * Methods

    A method of the instance transforms its state and logs the effects it
    has on the browser, in order. *)

Definition M (A : Type) : Type := State -> A * State * list Effect.

Definition ret {A : Type} (a : A) : M A := fun s => (a, s, []).

Definition bind {A B : Type} (m : M A) (k : A -> M B) : M B :=
  fun s =>
    let '(a, s1, l1) := m s in
    let '(b, s2, l2) := k a s1 in
    (b, s2, (l1 ++ l2)%list).

Notation "x <- c ;; k" := (bind c (fun x => k))
  (at level 61, c at next level, right associativity).
Notation "c ;; k" := (bind c (fun _ => k))
  (at level 61, right associativity).

(** Read the instance. *)
Definition this : M State := fun s => (s, s, []).

Definition assign (f : State -> State) : M unit := fun s => (tt, f s, []).

Definition emit (e : Effect) : M unit := fun s => (tt, s, [e]).

Definition gl_ (c : GLCall) : M unit := emit (GL c).

(** A fresh object of the browser ([gl.createShader], [gl.createProgram],
    [new MediaRecorder], [new CCapture]). *)
Definition new_object : M handle :=
  fun s => (nextObject s, set_nextObject (S (nextObject s)) s, []).

(** A method run on a state: the state it leaves and its effects. *)
Definition run (m : M unit) (s : State) : State * list Effect :=
  let '(_, s', l) := m s in (s', l).

(** The events of a list delivered in order to [listener]. *)
Fixpoint deliver {E : Type} (listener : E -> M unit) (es : list E) (s : State)
    : State * list Effect :=
  match es with
  | [] => (s, [])
  | e :: es' =>
      let '(s1, l1) := run (listener e) s in
      let '(s2, l2) := deliver listener es' s1 in
      (s2, (l1 ++ l2)%list)
  end.

(** Writes to the page elements the export methods receive
    ([button], [textEl], [infoEl]). *)
Definition button_recording (b : bool) : M unit :=
  assign (fun s =>
    set_recordBtn {| recording := b; disabled := disabled (recordBtn s) |} s).

Definition button_disabled (b : bool) : M unit :=
  assign (fun s =>
    set_recordBtn {| recording := recording (recordBtn s); disabled := b |} s).

Definition textEl_textContent (t : text) : M unit :=
  assign (set_recordText t).

Definition infoEl_textContent (t : text) : M unit :=
  assign (fun s =>
    set_recordInfo {| textContent := t; active := active (recordInfo s) |} s).

Definition infoEl_active (b : bool) : M unit :=
  assign (fun s =>
    set_recordInfo {| textContent := textContent (recordInfo s); active := b |} s).

(** The sliders of [setupControls]: the key of [this.params] each writes. *)
Inductive Slider :=
| speed_slider | zoom_slider | warpStrength_slider
| glowSharpness_slider | colorPhase_slider | iterations_slider.

(** [this.params[param] = value]. *)
Definition set_param (k : Slider) (x : float) (p : Params) : Params :=
  match k with
  | speed_slider =>
      Build_Params (variation p) x (zoom p) (warpStrength p)
        (glowSharpness p) (colorPhase p) (iterations p)
  | zoom_slider =>
      Build_Params (variation p) (speed p) x (warpStrength p)
        (glowSharpness p) (colorPhase p) (iterations p)
  | warpStrength_slider =>
      Build_Params (variation p) (speed p) (zoom p) x
        (glowSharpness p) (colorPhase p) (iterations p)
  | glowSharpness_slider =>
      Build_Params (variation p) (speed p) (zoom p) (warpStrength p)
        x (colorPhase p) (iterations p)
  | colorPhase_slider =>
      Build_Params (variation p) (speed p) (zoom p) (warpStrength p)
        (glowSharpness p) x (iterations p)
  | iterations_slider =>
      Build_Params (variation p) (speed p) (zoom p) (warpStrength p)
        (glowSharpness p) (colorPhase p) x
  end.

Definition set_variation (v : string) (p : Params) : Params :=
  Build_Params v (speed p) (zoom p) (warpStrength p)
    (glowSharpness p) (colorPhase p) (iterations p).

(** The eight uniform calls every draw makes, in the order of the sources:
    the resolution, the time handed in, and the six parameters. *)
Definition writeUniforms (time : float) : M unit :=
  s <- this ;;
  gl_ (uniform2f iResolution (uniforms s iResolution)
         (canvas_width s) (canvas_height s)) ;;
  gl_ (uniform1f iTime (uniforms s iTime) time) ;;
  gl_ (uniform1f iSpeed (uniforms s iSpeed) (speed (params s))) ;;
  gl_ (uniform1f iZoom (uniforms s iZoom) (zoom (params s))) ;;
  gl_ (uniform1f iWarpStrength (uniforms s iWarpStrength)
         (warpStrength (params s))) ;;
  gl_ (uniform1f iGlowSharpness (uniforms s iGlowSharpness)
         (glowSharpness (params s))) ;;
  gl_ (uniform1f iColorPhase (uniforms s iColorPhase)
         (colorPhase (params s))) ;;
  gl_ (uniform1f iIterations (uniforms s iIterations)
         (iterations (params s))).

(** The double quote character of the console message of [src/shader.js]. *)
Definition dquote : string := String (ascii_of_nat 34) EmptyString.

(** The instance after the property assignments at the head of the
    constructor; [now] is what [performance.now()] reads.  The canvas has
    the size of a canvas without attributes, the export button is idle, and
    the default zoom 0.3 is written as the binary64 value it denotes. *)
Definition fields (now : float) : State :=
  {| params :=
       {| variation := "rocaille"; speed := 1; zoom := 0x1.3333333333333p-2;
          warpStrength := 1; glowSharpness := 1; colorPhase := 0;
          iterations := 10 |};
     startTime := now;
     program := None;
     uniforms := fun _ => None;
     positionBuffer := None;
     canvas_width := 300;
     canvas_height := 150;
     isExporting := false;
     exportFrameCount := 0;
     currentFrame := 0;
     capturer := None;
     exportTime := 0;
     exportDuration := 0;
     mediaRecorder := None;
     recordedChunks := [];
     recordBtn := {| recording := false; disabled := false |};
     recordText := [Str "Export Video"];
     recordInfo := {| textContent := []; active := false |};
     nextObject := 0 |}.

(** [initGeometry()]: the buffer of the full-screen quad. *)
Definition initGeometry : M unit :=
  let positions := [-1; -1; 1; -1; -1; 1; 1; 1]%float in
  b <- new_object ;;
  gl_ (createBuffer b) ;;
  assign (set_positionBuffer (Some b)) ;;
  gl_ (bindBuffer (Some b)) ;;
  gl_ (bufferData positions).

(** [resize()]: [width] and [height] are the size the canvas has after the
    two assignments (the window size times the pixel ratio, as the canvas
    stores it). *)
Definition resize (width height : float) : M unit :=
  assign (set_canvas_width width) ;;
  assign (set_canvas_height height) ;;
  gl_ (viewport 0 0 width height).

(** The controls panel of the export files: the [collapsed] class of the
    element [.controls], and the item [controlsCollapsed] of [localStorage]
    ([None] while nothing was stored). *)
Record Panel := {
  collapsed : bool;
  controlsCollapsed : option string
}.

(** * [src/shader.js]: the playground without export *)

Module ShaderJs.

(** ** The shader templater, lines 6-122 *)

(** [const vertexShaderSource]. *)
Definition vertexShaderSource : string :=
"#version 300 es
in vec4 aPosition;
void main() {
    gl_Position = aPosition;
}
".

(** [const header] of [generateFragmentShader]. *)
Definition header : string :=
"#version 300 es
precision highp float;

uniform vec2 iResolution;
uniform float iTime;
uniform float iSpeed;
uniform float iZoom;
uniform float iWarpStrength;
uniform float iGlowSharpness;
uniform float iColorPhase;
uniform float iIterations;

out vec4 fragColor;

void main() {
    vec2 p = (gl_FragCoord.xy * 2.0 - iResolution) / iResolution.y / iZoom;
    vec4 col = vec4(0.0);
    float t = iTime * iSpeed;
".

(** The template literal assigned to [loopCode] under [case 'rocaille']. *)
Definition loopCode_rocaille : string :=
"
    for (float i = 0.0; i < iIterations; i++) {
        vec2 v = p;
        for (float f = 1.0; f < 10.0; f++) {
            v += sin(v.yx * f + i + iResolution + t) / (f * iWarpStrength);
        }
        col += (cos(i + iColorPhase + vec4(0.0, 1.0, 2.0, 3.0)) + 1.0) / 6.0 / pow(length(v), iGlowSharpness);
    }
".

(** The template literal assigned to [loopCode] under [case 'liquid']. *)
Definition loopCode_liquid : string :=
"
    for (float i = 0.0; i < iIterations; i++) {
        vec2 v = p;
        // Single frequency wave instead of multi-frequency
        v += sin(v.yx * 3.0 + i + t) * 0.5 / iWarpStrength;
        v += sin(v.yx * 1.5 + i + t) * 0.3 / iWarpStrength;
        col += (cos(i + iColorPhase + vec4(0.0, 1.0, 2.0, 3.0)) + 1.0) / 6.0 / pow(length(v), iGlowSharpness);
    }
".

(** The template literal assigned to [loopCode] under [case 'electric']. *)
Definition loopCode_electric : string :=
"
    for (float i = 0.0; i < iIterations; i++) {
        vec2 v = p;
        for (float f = 1.0; f < 10.0; f++) {
            v += sin(v.yx * f + i + iResolution + t) / (f * iWarpStrength);
        }
        // Manhattan distance instead of Euclidean
        float dist = abs(v.x) + abs(v.y);
        col += (cos(i + iColorPhase + vec4(0.0, 1.0, 2.0, 3.0)) + 1.0) / 6.0 / pow(dist, iGlowSharpness);
    }
".

(** The template literal assigned to [loopCode] under [case 'kaleidoscope']. *)
Definition loopCode_kaleidoscope : string :=
"
    for (float i = 0.0; i < iIterations; i++) {
        vec2 v = abs(p); // Force symmetry
        for (float f = 1.0; f < 10.0; f++) {
            v = abs(v); // Maintain symmetry each iteration
            v += sin(v.yx * f + i + iResolution + t) / (f * iWarpStrength);
        }
        col += (cos(i + iColorPhase + vec4(0.0, 1.0, 2.0, 3.0)) + 1.0) / 6.0 / pow(length(v), iGlowSharpness);
    }
".

(** The template literal assigned to [loopCode] under [case 'alien']. *)
Definition loopCode_alien : string :=
"
    for (float i = 0.0; i < iIterations; i++) {
        vec2 v = p;
        for (float f = 1.0; f < 10.0; f++) {
            v += sin(v.yx * f + i + iResolution + t) / (f * iWarpStrength);
        }
        // IQ palette: a + b*cos(6.28318*(c*t+d))
        vec3 pal = 0.5 + 0.5 * cos(6.28318 * (0.5 * i + iColorPhase + vec3(0.0, 0.33, 0.67)));
        col.rgb += pal / pow(length(v), iGlowSharpness) / 6.0;
        col.a += 1.0 / pow(length(v), iGlowSharpness) / 6.0;
    }
".

(** [const footer] of [generateFragmentShader]. *)
Definition footer : string :=
"
    fragColor = tanh(col * col);
}
".

(** [generateFragmentShader(variation)]: [let loopCode] starts undefined, the
    [switch] compares [variation] with each case label by strict equality, and
    the [default] branch evaluates [loopCode || ''] on the still undefined
    variable. *)
Definition generateFragmentShader (variation : string) : string :=
  let loopCode : option string := None in
  let loopCode : string :=
    if String.eqb variation "rocaille" then loopCode_rocaille
    else if String.eqb variation "liquid" then loopCode_liquid
    else if String.eqb variation "electric" then loopCode_electric
    else if String.eqb variation "kaleidoscope" then loopCode_kaleidoscope
    else if String.eqb variation "alien" then loopCode_alien
    else or_string loopCode "" in
  header ++ loopCode ++ footer.

(** The template literal the [switch] holds under each case label. *)
Definition body (v : Variation) : string :=
  match v with
  | rocaille => loopCode_rocaille
  | liquid => loopCode_liquid
  | electric => loopCode_electric
  | kaleidoscope => loopCode_kaleidoscope
  | alien => loopCode_alien
  end.

(** ** The pipeline binder and the frame driver of [src/shader.js] *)

Section Methods.
Variable gl : GLDriver.
Local Open Scope float_scope.

(** [buildShader(variation)], lines 170-232. *)
Definition buildShader (variation : string) : M unit :=
  s <- this ;;
  match program s with
  | Some p => gl_ (deleteProgram p)
  | None => ret tt
  end ;;
  vertexShader <- new_object ;;
  gl_ (createShader VERTEX_SHADER vertexShader) ;;
  gl_ (shaderSource vertexShader vertexShaderSource) ;;
  gl_ (compileShader vertexShader) ;;
  if negb (COMPILE_STATUS gl VERTEX_SHADER vertexShaderSource) then
    emit (console_error
            [Str "Vertex shader error:";
             Str (getShaderInfoLog gl VERTEX_SHADER vertexShaderSource)])
  else
    let fragmentSource := generateFragmentShader variation in
    fragmentShader <- new_object ;;
    gl_ (createShader FRAGMENT_SHADER fragmentShader) ;;
    gl_ (shaderSource fragmentShader fragmentSource) ;;
    gl_ (compileShader fragmentShader) ;;
    if negb (COMPILE_STATUS gl FRAGMENT_SHADER fragmentSource) then
      emit (console_error
              [Str "Fragment shader error:";
               Str (getShaderInfoLog gl FRAGMENT_SHADER fragmentSource)]) ;;
      emit (console_log [Str "Source:"; Str fragmentSource])
    else
      p <- new_object ;;
      gl_ (createProgram p) ;;
      assign (set_program (Some p)) ;;
      gl_ (attachShader p vertexShader) ;;
      gl_ (attachShader p fragmentShader) ;;
      gl_ (linkProgram p) ;;
      if negb (LINK_STATUS gl vertexShaderSource fragmentSource) then
        emit (console_error
                [Str "Program link error:";
                 Str (getProgramInfoLog gl vertexShaderSource fragmentSource)])
      else
        gl_ (useProgram p) ;;
        s <- this ;;
        gl_ (bindBuffer (positionBuffer s)) ;;
        let aPosition :=
          getAttribLocation gl vertexShaderSource fragmentSource in
        gl_ (enableVertexAttribArray aPosition) ;;
        gl_ (vertexAttribPointer aPosition 2) ;;
        assign (set_uniforms (fun u =>
          option_map (pair p)
            (getUniformLocation gl vertexShaderSource fragmentSource u))) ;;
        emit (console_log
                [Str ("Shader variation " ++ dquote); Str variation;
                 Str (dquote ++ " compiled successfully.")]).

(** [render()], lines 275-293; [now] is what [performance.now()] reads. *)
Definition render (now : float) : M unit :=
  s <- this ;;
  let time := (now - startTime s) / 1000 in
  writeUniforms time ;;
  gl_ (drawArrays 0 4) ;;
  emit (requestAnimationFrame CbRender).

(** [new ShaderPlayground()] on a page with a WebGL2 context: the instance
    the constructor leaves and the effects it had.  [now] is the clock
    reading of the constructor, [width] and [height] the canvas size after
    [resize], [now'] the reading of the first [render]. *)
Definition new_ShaderPlayground (now width height now' : float)
    : State * list Effect :=
  run (initGeometry ;;
       s <- this ;;
       buildShader (variation (params s)) ;;
       resize width height ;;
       render now')
    (fields now).

(** ** The event loop: what the browser may deliver to the instance *)

Inductive Event :=
| animationFrame_render (now : float)
| window_resize (width height : float)
| slider_input (k : Slider) (value : float)
| variation_change (value : string).

Definition handle_event (e : Event) : M unit :=
  match e with
  | animationFrame_render now => render now
  | window_resize width height => resize width height
  | slider_input k value =>
      assign (fun s => set_params (set_param k value (params s)) s)
  | variation_change value =>
      assign (fun s => set_params (set_variation value (params s)) s) ;;
      buildShader value
  end.

End Methods.

End ShaderJs.

(** * [src/unnamed/part_000]: the playground exporting through CCapture *)

Module Part000.

(** ** The shader templater, lines 1-106 *)

(** [const vertexShaderSource]. *)
Definition vertexShaderSource : string :=
"#version 300 es
in vec4 aPosition;
void main() {
    gl_Position = aPosition;
}
".

(** [const header] of [generateFragmentShader]. *)
Definition header : string :=
"#version 300 es
precision highp float;

uniform vec2 iResolution;
uniform float iTime;
uniform float iSpeed;
uniform float iZoom;
uniform float iWarpStrength;
uniform float iGlowSharpness;
uniform float iColorPhase;
uniform float iIterations;

out vec4 fragColor;

void main() {
    vec2 p = (gl_FragCoord.xy * 2.0 - iResolution) / iResolution.y / iZoom;
    vec4 col = vec4(0.0);
    float t = iTime * iSpeed;
".

(** The template literal assigned to [loopCode] under [case 'rocaille']. *)
Definition loopCode_rocaille : string :=
"
    for (float i = 0.0; i < iIterations; i++) {
        vec2 v = p;
        for (float f = 1.0; f < 10.0; f++) {
            v += sin(v.yx * f + i + iResolution + t) / (f * iWarpStrength);
        }
        col += (cos(i + iColorPhase + vec4(0.0, 1.0, 2.0, 3.0)) + 1.0) / 6.0 / pow(length(v), iGlowSharpness);
    }
".

(** The template literal assigned to [loopCode] under [case 'liquid']. *)
Definition loopCode_liquid : string :=
"
    for (float i = 0.0; i < iIterations; i++) {
        vec2 v = p;
        v += sin(v.yx * 3.0 + i + t) * 0.5 / iWarpStrength;
        v += sin(v.yx * 1.5 + i + t) * 0.3 / iWarpStrength;
        col += (cos(i + iColorPhase + vec4(0.0, 1.0, 2.0, 3.0)) + 1.0) / 6.0 / pow(length(v), iGlowSharpness);
    }
".

(** The template literal assigned to [loopCode] under [case 'electric']. *)
Definition loopCode_electric : string :=
"
    for (float i = 0.0; i < iIterations; i++) {
        vec2 v = p;
        for (float f = 1.0; f < 10.0; f++) {
            v += sin(v.yx * f + i + iResolution + t) / (f * iWarpStrength);
        }
        float dist = abs(v.x) + abs(v.y);
        col += (cos(i + iColorPhase + vec4(0.0, 1.0, 2.0, 3.0)) + 1.0) / 6.0 / pow(dist, iGlowSharpness);
    }
".

(** The template literal assigned to [loopCode] under [case 'kaleidoscope']. *)
Definition loopCode_kaleidoscope : string :=
"
    for (float i = 0.0; i < iIterations; i++) {
        vec2 v = abs(p);
        for (float f = 1.0; f < 10.0; f++) {
            v = abs(v);
            v += sin(v.yx * f + i + iResolution + t) / (f * iWarpStrength);
        }
        col += (cos(i + iColorPhase + vec4(0.0, 1.0, 2.0, 3.0)) + 1.0) / 6.0 / pow(length(v), iGlowSharpness);
    }
".

(** The template literal assigned to [loopCode] under [case 'alien']. *)
Definition loopCode_alien : string :=
"
    for (float i = 0.0; i < iIterations; i++) {
        vec2 v = p;
        for (float f = 1.0; f < 10.0; f++) {
            v += sin(v.yx * f + i + iResolution + t) / (f * iWarpStrength);
        }
        vec3 pal = 0.5 + 0.5 * cos(6.28318 * (0.5 * i + iColorPhase + vec3(0.0, 0.33, 0.67)));
        col.rgb += pal / pow(length(v), iGlowSharpness) / 6.0;
        col.a += 1.0 / pow(length(v), iGlowSharpness) / 6.0;
    }
".

(** [const footer] of [generateFragmentShader]. *)
Definition footer : string :=
"
    vec4 result = tanh(col * col);
    fragColor = vec4(result.rgb, 1.0);
}
".

(** [generateFragmentShader(variation)]: [let loopCode] starts undefined, the
    [switch] compares [variation] with each case label by strict equality, and
    the [default] branch evaluates [loopCode || ''] on the still undefined
    variable. *)
Definition generateFragmentShader (variation : string) : string :=
  let loopCode : option string := None in
  let loopCode : string :=
    if String.eqb variation "rocaille" then loopCode_rocaille
    else if String.eqb variation "liquid" then loopCode_liquid
    else if String.eqb variation "electric" then loopCode_electric
    else if String.eqb variation "kaleidoscope" then loopCode_kaleidoscope
    else if String.eqb variation "alien" then loopCode_alien
    else or_string loopCode "" in
  header ++ loopCode ++ footer.

(** The template literal the [switch] holds under each case label. *)
Definition body (v : Variation) : string :=
  match v with
  | rocaille => loopCode_rocaille
  | liquid => loopCode_liquid
  | electric => loopCode_electric
  | kaleidoscope => loopCode_kaleidoscope
  | alien => loopCode_alien
  end.

(** ** The pipeline binder and the live frame driver

    These methods read the same in [src/unnamed/part_000] and
    [src/unnamed/part_001]. *)

Section Methods.
Variable gl : GLDriver.
Local Open Scope float_scope.

(** [buildShader(variation)]. *)
Definition buildShader (variation : string) : M unit :=
  s <- this ;;
  match program s with
  | Some p => gl_ (deleteProgram p)
  | None => ret tt
  end ;;
  vertexShader <- new_object ;;
  gl_ (createShader VERTEX_SHADER vertexShader) ;;
  gl_ (shaderSource vertexShader vertexShaderSource) ;;
  gl_ (compileShader vertexShader) ;;
  if negb (COMPILE_STATUS gl VERTEX_SHADER vertexShaderSource) then
    emit (console_error
            [Str "Vertex shader error:";
             Str (getShaderInfoLog gl VERTEX_SHADER vertexShaderSource)])
  else
    let fragmentSource := generateFragmentShader variation in
    fragmentShader <- new_object ;;
    gl_ (createShader FRAGMENT_SHADER fragmentShader) ;;
    gl_ (shaderSource fragmentShader fragmentSource) ;;
    gl_ (compileShader fragmentShader) ;;
    if negb (COMPILE_STATUS gl FRAGMENT_SHADER fragmentSource) then
      emit (console_error
              [Str "Fragment shader error:";
               Str (getShaderInfoLog gl FRAGMENT_SHADER fragmentSource)])
    else
      p <- new_object ;;
      gl_ (createProgram p) ;;
      assign (set_program (Some p)) ;;
      gl_ (attachShader p vertexShader) ;;
      gl_ (attachShader p fragmentShader) ;;
      gl_ (linkProgram p) ;;
      if negb (LINK_STATUS gl vertexShaderSource fragmentSource) then
        emit (console_error
                [Str "Program link error:";
                 Str (getProgramInfoLog gl vertexShaderSource fragmentSource)])
      else
        gl_ (useProgram p) ;;
        s <- this ;;
        gl_ (bindBuffer (positionBuffer s)) ;;
        let aPosition :=
          getAttribLocation gl vertexShaderSource fragmentSource in
        gl_ (enableVertexAttribArray aPosition) ;;
        gl_ (vertexAttribPointer aPosition 2) ;;
        assign (set_uniforms (fun u =>
          option_map (pair p)
            (getUniformLocation gl vertexShaderSource fragmentSource u))).

(** The draw both frame drivers make with the time handed in: clear, the
    eight uniforms, one triangle strip of four vertices. *)
Definition draw (time : float) : M unit :=
  gl_ (clearColor 0 0 0 1) ;;
  gl_ clear ;;
  writeUniforms time ;;
  gl_ (drawArrays 0 4).

(** [render()]; [now] is what [performance.now()] reads when the driver
    draws. *)
Definition render (now : float) : M unit :=
  s <- this ;;
  if isExporting s then
    emit (requestAnimationFrame CbRender)
  else
    let time := (now - startTime s) / 1000 in
    draw time ;;
    emit (requestAnimationFrame CbRender).

(** [getLoopDuration()]. *)
Definition getLoopDuration : M float :=
  s <- this ;;
  ret (2 * Math_PI / speed (params s)).

(** [new ShaderPlayground()] on a page with a WebGL2 context: the instance
    the constructor leaves and the effects it had.  [now] is the clock
    reading of the constructor, [width] and [height] the canvas size after
    [resize], [now'] the reading of the first [render]. *)
Definition new_ShaderPlayground (now width height now' : float)
    : State * list Effect :=
  run (initGeometry ;;
       s <- this ;;
       buildShader (variation (params s)) ;;
       resize width height ;;
       render now')
    (fields now).

(** ** The collapsible panel, [setupToggle()] *)

(** What [setupToggle] does when it runs: the panel is collapsed when the
    stored item is the text [true]. *)
Definition setupToggle (p : Panel) : Panel :=
  let isCollapsed :=
    match controlsCollapsed p with
    | Some v => String.eqb v "true"
    | None => false
    end in
  if isCollapsed then
    {| collapsed := true; controlsCollapsed := controlsCollapsed p |}
  else p.

(** The click listener of the toggle button: the class is toggled and
    its new presence stored. *)
Definition toggleBtn_click (p : Panel) : Panel :=
  let contains := negb (collapsed p) in
  {| collapsed := contains;
     controlsCollapsed := Some (String_of_boolean contains) |}.

(** The click listener of the header: it toggles when the target of the
    click is the header itself ([is_header]) or carries the class
    [controls-title] ([is_title]). *)
Definition header_click (is_header is_title : bool) (p : Panel) : Panel :=
  if is_header || is_title then
    let contains := negb (collapsed p) in
    {| collapsed := contains;
       controlsCollapsed := Some (String_of_boolean contains) |}
  else p.

(** The clicks the panel receives. *)
Inductive PanelEvent :=
| toggleBtn_clicked
| header_clicked (is_header is_title : bool).

Definition handle_panel (e : PanelEvent) (p : Panel) : Panel :=
  match e with
  | toggleBtn_clicked => toggleBtn_click p
  | header_clicked is_header is_title => header_click is_header is_title p
  end.

(** ** The export controller (CCapture), lines 270-364 *)

(** [finishExport(button, textEl, infoEl)]: the capturer is stopped and
    saved at once, the rest waits for a timer of 500 ms. *)
Definition finishExport : M unit :=
  textEl_textContent [Str "Saving..."] ;;
  s <- this ;;
  emit (capturer_stop (capturer s)) ;;
  emit (capturer_save (capturer s)) ;;
  emit (setTimeout CbExportDone 500).

(** The function [finishExport] hands to [setTimeout(..., 500)]; [now] is
    what [performance.now()] reads when it runs. *)
Definition exportDone (now : float) : M unit :=
  assign (set_isExporting false) ;;
  button_recording false ;;
  button_disabled false ;;
  textEl_textContent [Str "Export Video"] ;;
  infoEl_textContent [Str "Download complete!"] ;;
  infoEl_active false ;;
  assign (set_startTime now) ;;
  emit (setTimeout CbClearInfo 3000).

(** The function handed to [setTimeout(..., 3000)]. *)
Definition clearInfo : M unit :=
  infoEl_textContent [Str ""].

(** [exportRender(button, textEl, infoEl)]. *)
Definition exportRender : M unit :=
  s <- this ;;
  if exportFrameCount s <=? currentFrame s then
    finishExport
  else
    let fps := 60 in
    let frameTime := currentFrame s / fps in
    draw frameTime ;;
    emit (capturer_capture (capturer s)) ;;
    assign (set_currentFrame (currentFrame s + 1)) ;;
    s <- this ;;
    let progress := Math_round (currentFrame s / exportFrameCount s * 100) in
    textEl_textContent [Str "Exporting "; Num progress; Str "%"] ;;
    infoEl_textContent
      [Num (currentFrame s); Str " / "; Num (exportFrameCount s);
       Str " frames"] ;;
    emit (requestAnimationFrame CbExportRender).

(** [startExport(button, textEl, infoEl)]; [dateNow] is what [Date.now()]
    reads for the name of the capture. *)
Definition startExport (dateNow : float) : M unit :=
  let fps := 60 in
  loopDuration <- getLoopDuration ;;
  assign (set_exportFrameCount (Math_ceil (loopDuration * fps))) ;;
  assign (set_exportDuration loopDuration) ;;
  assign (set_currentFrame 0) ;;
  assign (set_exportTime 0) ;;
  assign (set_isExporting true) ;;
  button_recording true ;;
  button_disabled true ;;
  textEl_textContent [Str "Exporting..."] ;;
  s <- this ;;
  infoEl_textContent [Str "0 / "; Num (exportFrameCount s); Str " frames"] ;;
  infoEl_active true ;;
  c <- new_object ;;
  emit (new_CCapture c fps 100
          [Str "shader_"; Str (variation (params s)); Str "_"; Num dateNow]) ;;
  assign (set_capturer (Some c)) ;;
  emit (capturer_start (Some c)) ;;
  exportRender.

(** The click listener [setupExport] puts on the record button. *)
Definition recordBtn_click (dateNow : float) : M unit :=
  s <- this ;;
  if isExporting s then ret tt
  else startExport dateNow.

(** ** The event loop: what the browser may deliver to the instance *)

Inductive Event :=
| click (dateNow : float)
| animationFrame_render (now : float)
| animationFrame_exportRender
| timeout_exportDone (now : float)
| timeout_clearInfo
| window_resize (width height : float)
| slider_input (k : Slider) (value : float)
| variation_change (value : string).

Definition handle_event (e : Event) : M unit :=
  match e with
  | click dateNow => recordBtn_click dateNow
  | animationFrame_render now => render now
  | animationFrame_exportRender => exportRender
  | timeout_exportDone now => exportDone now
  | timeout_clearInfo => clearInfo
  | window_resize width height => resize width height
  | slider_input k value =>
      assign (fun s => set_params (set_param k value (params s)) s)
  | variation_change value =>
      assign (fun s => set_params (set_variation value (params s)) s) ;;
      buildShader value
  end.

End Methods.

End Part000.

(** * [src/unnamed/part_001]: the playground exporting through MediaRecorder *)

Module Part001.

(** ** The shader templater, lines 1-106 *)

(** [const vertexShaderSource]. *)
Definition vertexShaderSource : string :=
"#version 300 es
in vec4 aPosition;
void main() {
    gl_Position = aPosition;
}
".

(** [const header] of [generateFragmentShader]. *)
Definition header : string :=
"#version 300 es
precision highp float;

uniform vec2 iResolution;
uniform float iTime;
uniform float iSpeed;
uniform float iZoom;
uniform float iWarpStrength;
uniform float iGlowSharpness;
uniform float iColorPhase;
uniform float iIterations;

out vec4 fragColor;

void main() {
    vec2 p = (gl_FragCoord.xy * 2.0 - iResolution) / iResolution.y / iZoom;
    vec4 col = vec4(0.0);
    float t = iTime * iSpeed;
".

(** The template literal assigned to [loopCode] under [case 'rocaille']. *)
Definition loopCode_rocaille : string :=
"
    for (float i = 0.0; i < iIterations; i++) {
        vec2 v = p;
        for (float f = 1.0; f < 10.0; f++) {
            v += sin(v.yx * f + i + iResolution + t) / (f * iWarpStrength);
        }
        col += (cos(i + iColorPhase + vec4(0.0, 1.0, 2.0, 3.0)) + 1.0) / 6.0 / pow(length(v), iGlowSharpness);
    }
".

(** The template literal assigned to [loopCode] under [case 'liquid']. *)
Definition loopCode_liquid : string :=
"
    for (float i = 0.0; i < iIterations; i++) {
        vec2 v = p;
        v += sin(v.yx * 3.0 + i + t) * 0.5 / iWarpStrength;
        v += sin(v.yx * 1.5 + i + t) * 0.3 / iWarpStrength;
        col += (cos(i + iColorPhase + vec4(0.0, 1.0, 2.0, 3.0)) + 1.0) / 6.0 / pow(length(v), iGlowSharpness);
    }
".

(** The template literal assigned to [loopCode] under [case 'electric']. *)
Definition loopCode_electric : string :=
"
    for (float i = 0.0; i < iIterations; i++) {
        vec2 v = p;
        for (float f = 1.0; f < 10.0; f++) {
            v += sin(v.yx * f + i + iResolution + t) / (f * iWarpStrength);
        }
        float dist = abs(v.x) + abs(v.y);
        col += (cos(i + iColorPhase + vec4(0.0, 1.0, 2.0, 3.0)) + 1.0) / 6.0 / pow(dist, iGlowSharpness);
    }
".

(** The template literal assigned to [loopCode] under [case 'kaleidoscope']. *)
Definition loopCode_kaleidoscope : string :=
"
    for (float i = 0.0; i < iIterations; i++) {
        vec2 v = abs(p);
        for (float f = 1.0; f < 10.0; f++) {
            v = abs(v);
            v += sin(v.yx * f + i + iResolution + t) / (f * iWarpStrength);
        }
        col += (cos(i + iColorPhase + vec4(0.0, 1.0, 2.0, 3.0)) + 1.0) / 6.0 / pow(length(v), iGlowSharpness);
    }
".

(** The template literal assigned to [loopCode] under [case 'alien']. *)
Definition loopCode_alien : string :=
"
    for (float i = 0.0; i < iIterations; i++) {
        vec2 v = p;
        for (float f = 1.0; f < 10.0; f++) {
            v += sin(v.yx * f + i + iResolution + t) / (f * iWarpStrength);
        }
        vec3 pal = 0.5 + 0.5 * cos(6.28318 * (0.5 * i + iColorPhase + vec3(0.0, 0.33, 0.67)));
        col.rgb += pal / pow(length(v), iGlowSharpness) / 6.0;
        col.a += 1.0 / pow(length(v), iGlowSharpness) / 6.0;
    }
".

(** [const footer] of [generateFragmentShader]. *)
Definition footer : string :=
"
    vec4 result = tanh(col * col);
    fragColor = vec4(result.rgb, 1.0);
}
".

(** [generateFragmentShader(variation)]: [let loopCode] starts undefined, the
    [switch] compares [variation] with each case label by strict equality, and
    the [default] branch evaluates [loopCode || ''] on the still undefined
    variable. *)
Definition generateFragmentShader (variation : string) : string :=
  let loopCode : option string := None in
  let loopCode : string :=
    if String.eqb variation "rocaille" then loopCode_rocaille
    else if String.eqb variation "liquid" then loopCode_liquid
    else if String.eqb variation "electric" then loopCode_electric
    else if String.eqb variation "kaleidoscope" then loopCode_kaleidoscope
    else if String.eqb variation "alien" then loopCode_alien
    else or_string loopCode "" in
  header ++ loopCode ++ footer.

(** The template literal the [switch] holds under each case label. *)
Definition body (v : Variation) : string :=
  match v with
  | rocaille => loopCode_rocaille
  | liquid => loopCode_liquid
  | electric => loopCode_electric
  | kaleidoscope => loopCode_kaleidoscope
  | alien => loopCode_alien
  end.

(** ** The pipeline binder and the live frame driver

    These methods read the same in [src/unnamed/part_000] and
    [src/unnamed/part_001]. *)

Section Methods.
Variable gl : GLDriver.
Local Open Scope float_scope.

(** [buildShader(variation)]. *)
Definition buildShader (variation : string) : M unit :=
  s <- this ;;
  match program s with
  | Some p => gl_ (deleteProgram p)
  | None => ret tt
  end ;;
  vertexShader <- new_object ;;
  gl_ (createShader VERTEX_SHADER vertexShader) ;;
  gl_ (shaderSource vertexShader vertexShaderSource) ;;
  gl_ (compileShader vertexShader) ;;
  if negb (COMPILE_STATUS gl VERTEX_SHADER vertexShaderSource) then
    emit (console_error
            [Str "Vertex shader error:";
             Str (getShaderInfoLog gl VERTEX_SHADER vertexShaderSource)])
  else
    let fragmentSource := generateFragmentShader variation in
    fragmentShader <- new_object ;;
    gl_ (createShader FRAGMENT_SHADER fragmentShader) ;;
    gl_ (shaderSource fragmentShader fragmentSource) ;;
    gl_ (compileShader fragmentShader) ;;
    if negb (COMPILE_STATUS gl FRAGMENT_SHADER fragmentSource) then
      emit (console_error
              [Str "Fragment shader error:";
               Str (getShaderInfoLog gl FRAGMENT_SHADER fragmentSource)])
    else
      p <- new_object ;;
      gl_ (createProgram p) ;;
      assign (set_program (Some p)) ;;
      gl_ (attachShader p vertexShader) ;;
      gl_ (attachShader p fragmentShader) ;;
      gl_ (linkProgram p) ;;
      if negb (LINK_STATUS gl vertexShaderSource fragmentSource) then
        emit (console_error
                [Str "Program link error:";
                 Str (getProgramInfoLog gl vertexShaderSource fragmentSource)])
      else
        gl_ (useProgram p) ;;
        s <- this ;;
        gl_ (bindBuffer (positionBuffer s)) ;;
        let aPosition :=
          getAttribLocation gl vertexShaderSource fragmentSource in
        gl_ (enableVertexAttribArray aPosition) ;;
        gl_ (vertexAttribPointer aPosition 2) ;;
        assign (set_uniforms (fun u =>
          option_map (pair p)
            (getUniformLocation gl vertexShaderSource fragmentSource u))).

(** The draw both frame drivers make with the time handed in: clear, the
    eight uniforms, one triangle strip of four vertices. *)
Definition draw (time : float) : M unit :=
  gl_ (clearColor 0 0 0 1) ;;
  gl_ clear ;;
  writeUniforms time ;;
  gl_ (drawArrays 0 4).

(** [render()]; [now] is what [performance.now()] reads when the driver
    draws. *)
Definition render (now : float) : M unit :=
  s <- this ;;
  if isExporting s then
    emit (requestAnimationFrame CbRender)
  else
    let time := (now - startTime s) / 1000 in
    draw time ;;
    emit (requestAnimationFrame CbRender).

(** [getLoopDuration()]. *)
Definition getLoopDuration : M float :=
  s <- this ;;
  ret (2 * Math_PI / speed (params s)).

(** [new ShaderPlayground()] on a page with a WebGL2 context: the instance
    the constructor leaves and the effects it had.  [now] is the clock
    reading of the constructor, [width] and [height] the canvas size after
    [resize], [now'] the reading of the first [render]. *)
Definition new_ShaderPlayground (now width height now' : float)
    : State * list Effect :=
  run (initGeometry ;;
       s <- this ;;
       buildShader (variation (params s)) ;;
       resize width height ;;
       render now')
    (fields now).

(** ** The collapsible panel, [setupToggle()] *)

(** What [setupToggle] does when it runs: the panel is collapsed when the
    stored item is the text [true]. *)
Definition setupToggle (p : Panel) : Panel :=
  let isCollapsed :=
    match controlsCollapsed p with
    | Some v => String.eqb v "true"
    | None => false
    end in
  if isCollapsed then
    {| collapsed := true; controlsCollapsed := controlsCollapsed p |}
  else p.

(** The click listener of the toggle button: the class is toggled and
    its new presence stored. *)
Definition toggleBtn_click (p : Panel) : Panel :=
  let contains := negb (collapsed p) in
  {| collapsed := contains;
     controlsCollapsed := Some (String_of_boolean contains) |}.

(** The click listener of the header: it toggles when the target of the
    click is the header itself ([is_header]) or carries the class
    [controls-title] ([is_title]). *)
Definition header_click (is_header is_title : bool) (p : Panel) : Panel :=
  if is_header || is_title then
    let contains := negb (collapsed p) in
    {| collapsed := contains;
       controlsCollapsed := Some (String_of_boolean contains) |}
  else p.

(** The clicks the panel receives. *)
Inductive PanelEvent :=
| toggleBtn_clicked
| header_clicked (is_header is_title : bool).

Definition handle_panel (e : PanelEvent) (p : Panel) : Panel :=
  match e with
  | toggleBtn_clicked => toggleBtn_click p
  | header_clicked is_header is_title => header_click is_header is_title p
  end.

(** ** The export controller (MediaRecorder), lines 269-399 *)

(** What [startExport] asks the page and the browser: whether
    [MediaRecorder.isTypeSupported] accepts the VP9 and VP8 types, and the
    number [parseInt] reads from the quality selector. *)
Record ExportEnv := {
  vp9_supported : bool;
  vp8_supported : bool;
  selectedMbps : float
}.

(** [captureFrames(track, textEl, infoEl)]. *)
Definition captureFrames : M unit :=
  s <- this ;;
  if exportFrameCount s <=? currentFrame s then
    emit (mediaRecorder_stop (mediaRecorder s))
  else
    let fps := 60 in
    let frameTime := currentFrame s / fps in
    draw frameTime ;;
    gl_ finish ;;
    emit track_requestFrame ;;
    assign (set_currentFrame (currentFrame s + 1)) ;;
    s <- this ;;
    let progress := Math_round (currentFrame s / exportFrameCount s * 100) in
    textEl_textContent [Str "Recording "; Num progress; Str "%"] ;;
    infoEl_textContent
      [Num (currentFrame s); Str " / "; Num (exportFrameCount s);
       Str " frames"] ;;
    emit (setTimeout CbCaptureFrames (1000 / 60)).

(** [startExport(button, textEl, infoEl)]. *)
Definition startExport (env : ExportEnv) : M unit :=
  let fps := 60 in
  loopDuration <- getLoopDuration ;;
  assign (set_exportFrameCount (Math_ceil (loopDuration * fps))) ;;
  assign (set_currentFrame 0) ;;
  assign (set_recordedChunks []) ;;
  assign (set_isExporting true) ;;
  button_recording true ;;
  button_disabled true ;;
  textEl_textContent [Str "Recording..."] ;;
  s <- this ;;
  infoEl_textContent [Str "0 / "; Num (exportFrameCount s); Str " frames"] ;;
  infoEl_active true ;;
  emit (captureStream 0) ;;
  let mimeType :=
    if vp9_supported env then "video/webm;codecs=vp9"
    else if vp8_supported env then "video/webm;codecs=vp8"
    else "video/webm" in
  let targetBitrate := selectedMbps env * 1000000 in
  r <- new_object ;;
  emit (new_MediaRecorder r mimeType targetBitrate) ;;
  assign (set_mediaRecorder (Some r)) ;;
  emit (mediaRecorder_start (Some r)) ;;
  captureFrames.

(** [mediaRecorder.ondataavailable]. *)
Definition ondataavailable (data : Blob) : M unit :=
  if (0 <? String.length data)%nat then
    assign (fun s => set_recordedChunks (recordedChunks s ++ [data])%list s)
  else ret tt.

(** [finishExport(button, textEl, infoEl)], which [mediaRecorder.onstop]
    calls; [dateNow] and [now] are what [Date.now()] and
    [performance.now()] read. *)
Definition finishExport (dateNow now : float) : M unit :=
  s <- this ;;
  emit (download
          [Str "shader_"; Str (variation (params s)); Str "_"; Num dateNow;
           Str ".webm"]
          (recordedChunks s) "video/webm") ;;
  assign (set_recordedChunks []) ;;
  assign (set_isExporting false) ;;
  button_recording false ;;
  button_disabled false ;;
  textEl_textContent [Str "Export Video"] ;;
  infoEl_textContent [Str "Download complete!"] ;;
  assign (set_startTime now) ;;
  emit (setTimeout CbClearInfo 3000).

(** The function [finishExport] hands to [setTimeout(..., 3000)]. *)
Definition clearInfo : M unit :=
  infoEl_textContent [Str ""] ;;
  infoEl_active false.

(** [mediaRecorder.onerror]; [message] is [e.error?.message]. *)
Definition onerror (message : option string) : M unit :=
  emit (console_error [Str "MediaRecorder error:"; ErrorEvent message]) ;;
  textEl_textContent [Str "Export failed"] ;;
  infoEl_textContent [Str (or_string message "Recording error")] ;;
  button_disabled false ;;
  button_recording false ;;
  assign (set_isExporting false).

(** The click listener [setupExport] puts on the record button. *)
Definition recordBtn_click (env : ExportEnv) : M unit :=
  s <- this ;;
  if isExporting s then ret tt
  else startExport env.

(** ** The event loop: what the browser may deliver to the instance *)

Inductive Event :=
| click (env : ExportEnv)
| animationFrame_render (now : float)
| timeout_captureFrames
| timeout_clearInfo
| recorder_dataavailable (data : Blob)
| recorder_stop (dateNow now : float)
| recorder_error (message : option string)
| window_resize (width height : float)
| slider_input (k : Slider) (value : float)
| variation_change (value : string).

Definition handle_event (e : Event) : M unit :=
  match e with
  | click env => recordBtn_click env
  | animationFrame_render now => render now
  | timeout_captureFrames => captureFrames
  | timeout_clearInfo => clearInfo
  | recorder_dataavailable data => ondataavailable data
  | recorder_stop dateNow now => finishExport dateNow now
  | recorder_error message => onerror message
  | window_resize width height => resize width height
  | slider_input k value =>
      assign (fun s => set_params (set_param k value (params s)) s)
  | variation_change value =>
      assign (fun s => set_params (set_variation value (params s)) s) ;;
      buildShader value
  end.

End Methods.

End Part001.

(** * Vocabulary of the properties *)

(** The output of a templater [generate] for the case label [v] is the
    header, the body of [v] and the footer in a row: the header and the
    footer occur once each, the body of [v] occurs, and the body of no other
    label occurs. *)
Definition templated (header footer : string) (body : Variation -> string)
    (generate : string -> string) (v : Variation) : Prop :=
  generate (tag v) = header ++ body v ++ footer /\
  occurrences header (generate (tag v)) = 1 /\
  occurrences footer (generate (tag v)) = 1 /\
  includes (body v) (generate (tag v)) = true /\
  forall w : Variation, w <> v -> includes (body w) (generate (tag v)) = false.

(** The values a log writes to the time uniform, in order. *)
Fixpoint iTime_writes (l : list Effect) : list float :=
  match l with
  | [] => []
  | GL (uniform1f iTime _ x) :: l' => x :: iTime_writes l'
  | _ :: l' => iTime_writes l'
  end.

(** The sizes a log writes to the resolution uniform, in order. *)
Definition resolution_writes (l : list Effect) : list (float * float) :=
  flat_map (fun e => match e with
                     | GL (uniform2f iResolution _ x y) => [(x, y)]
                     | _ => []
                     end) l.

(** The number of draw calls of a log. *)
Definition draw_calls (l : list Effect) : nat :=
  List.length (filter (fun e => match e with
                                | GL (drawArrays _ _) => true
                                | _ => false
                                end) l).

(** The effects of a log that write a uniform or draw. *)
Definition draws_or_writes (e : Effect) : bool :=
  match e with
  | GL (uniform1f _ _ _) | GL (uniform2f _ _ _ _) | GL (drawArrays _ _) => true
  | _ => false
  end.

(** The frame counter after [k] increments of [c] ([this.currentFrame++]). *)
Fixpoint frameIndex (k : nat) (c : float) : float :=
  match k with
  | O => c
  | S k' => (frameIndex k' c + 1)%float
  end.

(** A natural number as a Number. *)
Definition of_nat (k : nat) : float := integral false (Z.of_nat k).

(** From the counter [c] and the integer [k], the next [n] values of the
    frame counter are the Numbers [k], [k + 1], ... *)
Fixpoint counts_agree (n : nat) (k : Z) (c : float) : bool :=
  match n with
  | O => true
  | S n' =>
      PrimFloat.Leibniz.eqb c (integral false k)
      && counts_agree n' (k + 1)%Z (c + 1)%float
  end.

(** A million frames, four and a half hours at 60 frames per second. *)
Definition frame_limit : nat := N.to_nat 1000000.

(** The loop duration over the real numbers, for a real speed. *)
Definition loopDurationR (speed : R) : R := (2 * PI / speed)%R.

(** Neither NaN nor an infinity: what a clock reads. *)
Definition finite (x : float) : bool :=
  match Prim2SF x with
  | S754_nan | S754_infinity _ => false
  | _ => true
  end.

(** ** Export sessions *)

(** The events of [src/unnamed/part_001] that neither capture a frame nor
    end the session: the recorder's [stop] and [error] apart, anything the
    browser delivers between two runs of [captureFrames]. *)
Definition ambient001 (e : Part001.Event) : bool :=
  match e with
  | Part001.timeout_captureFrames => false
  | Part001.recorder_stop _ _ => false
  | Part001.recorder_error _ => false
  | _ => true
  end.

(** The events of [src/unnamed/part_000] that neither capture a frame nor
    end the session. *)
Definition ambient000 (e : Part000.Event) : bool :=
  match e with
  | Part000.animationFrame_exportRender => false
  | Part000.timeout_exportDone _ => false
  | _ => true
  end.

(** A session after its start: each capture of a frame, the event
    [capture], preceded by the ambient events that arrive before it. *)
Definition session {E : Type} (capture : E) (ticks : list (list E)) : list E :=
  flat_map (fun es => es ++ [capture])%list ticks.

(** The frame count [startExport] computes from the speed of [s]. *)
Definition loopFrames (s : State) : float :=
  Math_ceil (2 * Math_PI / speed (params s) * 60)%float.

(** Two states of one session: the same flag, total and frame counter. *)
Definition same_session (s s' : State) : Prop :=
  isExporting s' = isExporting s /\
  exportFrameCount s' = exportFrameCount s /\
  currentFrame s' = currentFrame s.

(** The codecs and the bitrate an export of [src/unnamed/part_001] is
    started with below. *)
Definition env : Part001.ExportEnv :=
  {| Part001.vp9_supported := true;
     Part001.vp8_supported := true;
     Part001.selectedMbps := 8 |}.

(** ** WebGL implementations *)

(** An implementation that accepts every source and finds every uniform. *)
Definition working_gl : GLDriver :=
  {| COMPILE_STATUS := fun _ _ => true;
     getShaderInfoLog := fun _ _ => "";
     LINK_STATUS := fun _ _ => true;
     getProgramInfoLog := fun _ _ => "";
     getAttribLocation := fun _ _ => 0%Z;
     getUniformLocation := fun _ _ u =>
       Some match u with
            | iResolution => 0 | iTime => 1 | iSpeed => 2 | iZoom => 3
            | iWarpStrength => 4 | iGlowSharpness => 5
            | iColorPhase => 6 | iIterations => 7
            end |}.

(** An implementation whose linker refuses every program. *)
Definition unlinking_gl : GLDriver :=
  {| COMPILE_STATUS := fun _ _ => true;
     getShaderInfoLog := fun _ _ => "";
     LINK_STATUS := fun _ _ => false;
     getProgramInfoLog := fun _ _ => "link failed";
     getAttribLocation := fun _ _ => 0%Z;
     getUniformLocation := fun _ _ _ => None |}.

(** ** Rebuilding the pipeline *)

(** A compile or the link of the sources [vs] and [fs] fails. *)
Definition build_fails (gl : GLDriver) (vs fs : string) : Prop :=
  COMPILE_STATUS gl VERTEX_SHADER vs = false \/
  COMPILE_STATUS gl FRAGMENT_SHADER fs = false \/
  LINK_STATUS gl vs fs = false.

(** [gl.useProgram]: the call that installs a program as the one the
    context draws with. *)
Definition installs (e : Effect) : bool :=
  match e with
  | GL (useProgram _) => true
  | _ => false
  end.

(** A diagnostic on the developer console. *)
Definition reports (e : Effect) : bool :=
  match e with
  | console_error _ => true
  | _ => false
  end.

(** What a method [build] of a file does when it rebuilds the pipeline:
    the program of the instance, if any, is deleted before anything else,
    so before either source is compiled; and when a compile or the link
    fails the method reports, installs no program, leaves [this.uniforms]
    as it was and restores nothing: after a failed compile [this.program]
    still names the deleted program, after a failed link it names the new
    program that did not link. *)
Definition rebuilds_without_rollback (gl : GLDriver) (vs : string)
    (generate : string -> string) (build : string -> M unit) : Prop :=
  forall (variation : string) (s : State),
    let r := run (build variation) s in
    (forall p, program s = Some p ->
       exists l, snd r = GL (deleteProgram p) :: l) /\
    (build_fails gl vs (generate variation) ->
       existsb reports (snd r) = true /\
       existsb installs (snd r) = false /\
       uniforms (fst r) = uniforms s /\
       (COMPILE_STATUS gl VERTEX_SHADER vs = false \/
        COMPILE_STATUS gl FRAGMENT_SHADER (generate variation) = false ->
        program (fst r) = program s) /\
       (COMPILE_STATUS gl VERTEX_SHADER vs = true ->
        COMPILE_STATUS gl FRAGMENT_SHADER (generate variation) = true ->
        program (fst r) = Some (S (S (nextObject s))))).

(** ** Pages *)

(** The instance of each export file on a page whose WebGL implementation
    works, built at clock reading 0 with a canvas of 800 by 600 and first
    drawn at reading 16. *)
Definition page001 : State :=
  fst (Part001.new_ShaderPlayground working_gl 0 800 600 16).

Definition page000 : State :=
  fst (Part000.new_ShaderPlayground working_gl 0 800 600 16).

(** ** Shader sources *)

Definition newline : string := String (ascii_of_nat 10) EmptyString.

(** The name [buildShader] passes to [gl.getUniformLocation] for each key
    of [this.uniforms]. *)
Definition uniform_name (u : UniformName) : string :=
  match u with
  | iResolution => "iResolution"
  | iTime => "iTime"
  | iSpeed => "iSpeed"
  | iZoom => "iZoom"
  | iWarpStrength => "iWarpStrength"
  | iGlowSharpness => "iGlowSharpness"
  | iColorPhase => "iColorPhase"
  | iIterations => "iIterations"
  end.

(** The number of floats the draw hands to a uniform: two through
    [gl.uniform2f], one through [gl.uniform1f]. *)
Definition components_written (e : Effect) : option (UniformName * nat) :=
  match e with
  | GL (uniform2f u _ _ _) => Some (u, 2)
  | GL (uniform1f u _ _) => Some (u, 1)
  | _ => None
  end.

(** The component counts a log hands to the uniform [u], in order. *)
Definition written_components (u : UniformName) (l : list Effect) : list nat :=
  flat_map (fun e =>
    match components_written e with
    | Some (u', n) =>
        if String.eqb (uniform_name u) (uniform_name u') then [n] else []
    | None => []
    end) l.

(** The GLSL declaration of a uniform of [n] float components. *)
Definition declaration (name : string) (n : nat) : string :=
  "uniform " ++ (if Nat.eqb n 2 then "vec2" else "float") ++ " " ++ name ++ ";".

(** [s] ends with [suffix]. *)
Definition ends_with (suffix s : string) : bool :=
  String.eqb
    (substring (String.length s - String.length suffix)
       (String.length suffix) s)
    suffix
  && (String.length suffix <=? String.length s)%nat.

(** The brackets [opening] and [closing] nest properly in [s], from the
    depth [depth]: none closes before it opens and all are closed. *)
Fixpoint nested (opening closing : ascii) (s : string) (depth : nat) : bool :=
  match s with
  | EmptyString => Nat.eqb depth 0
  | String c s' =>
      if Ascii.eqb c opening then nested opening closing s' (S depth)
      else if Ascii.eqb c closing then
        match depth with
        | O => false
        | S d => nested opening closing s' d
        end
      else nested opening closing s' depth
  end.

(** The frame of a fragment shader of GLSL ES 3.00: the version directive
    is the first line, [main] is defined once, braces and parentheses nest,
    and the text ends with the brace that closes [main]. *)
Definition framed (src : string) : bool :=
  String.prefix ("#version 300 es" ++ newline) src
  && Nat.eqb (occurrences "void main()" src) 1
  && nested "{" "}" src 0
  && nested "(" ")" src 0
  && ends_with ("}" ++ newline) src.

(** ** Programs of the WebGL context *)

(** The programs alive after one more effect: [gl.createProgram] adds one,
    [gl.deleteProgram] removes one. *)
Definition track_program (alive : list handle) (e : Effect) : list handle :=
  match e with
  | GL (createProgram p) => p :: alive
  | GL (deleteProgram p) => remove Nat.eq_dec p alive
  | _ => alive
  end.

(** The programs a log has created and not deleted. *)
Definition live_programs (l : list Effect) : list handle :=
  fold_left track_program l [].

(** The program in use after one more effect. *)
Definition track_use (current : option handle) (e : Effect) : option handle :=
  match e with
  | GL (useProgram p) => Some p
  | _ => current
  end.

(** The program the last [gl.useProgram] of a log installed. *)
Definition program_in_use (l : list Effect) : option handle :=
  fold_left track_use l None.

(** A WebGL implementation that compiles and links whatever it is given. *)
Definition accepts_all (gl : GLDriver) : Prop :=
  (forall ty src, COMPILE_STATUS gl ty src = true) /\
  (forall vs fs, LINK_STATUS gl vs fs = true).

(** The instance is bound to the context of the log [l]: [this.program] is
    the program in use, and every cached uniform location is a location of
    that program. *)
Definition bound (s : State) (l : list Effect) : Prop :=
  program s = program_in_use l /\
  forall u h i, uniforms s u = Some (h, i) -> program_in_use l = Some h.

(** Every program alive in [l] is [this.program]. *)
Definition owns_live_programs (s : State) (l : list Effect) : Prop :=
  forall p, In p (live_programs l) -> program s = Some p.

(** ** The frame drivers *)

(** The uniform each slider feeds, and the parameter it writes. *)
Definition uniform_of (k : Slider) : UniformName :=
  match k with
  | speed_slider => iSpeed
  | zoom_slider => iZoom
  | warpStrength_slider => iWarpStrength
  | glowSharpness_slider => iGlowSharpness
  | colorPhase_slider => iColorPhase
  | iterations_slider => iIterations
  end.

Definition param_of (k : Slider) (p : Params) : float :=
  match k with
  | speed_slider => speed p
  | zoom_slider => zoom p
  | warpStrength_slider => warpStrength p
  | glowSharpness_slider => glowSharpness p
  | colorPhase_slider => colorPhase p
  | iterations_slider => iterations p
  end.

Definition Slider_eqb (k k' : Slider) : bool :=
  match k, k' with
  | speed_slider, speed_slider | zoom_slider, zoom_slider
  | warpStrength_slider, warpStrength_slider
  | glowSharpness_slider, glowSharpness_slider
  | colorPhase_slider, colorPhase_slider
  | iterations_slider, iterations_slider => true
  | _, _ => false
  end.

(** The values a log writes to the uniform [u] through [gl.uniform1f]. *)
Definition uniform1f_writes (u : UniformName) (l : list Effect) : list float :=
  flat_map (fun e =>
    match e with
    | GL (uniform1f u' _ x) =>
        if String.eqb (uniform_name u) (uniform_name u') then [x] else []
    | _ => []
    end) l.

(** The requests a log makes for a next run of [render]. *)
Definition render_requests (l : list Effect) : nat :=
  List.length (filter (fun e => match e with
                                | requestAnimationFrame CbRender => true
                                | _ => false
                                end) l).

(** The runs of [render] a list of events holds, for each file. *)
Definition render_ticks_js (es : list ShaderJs.Event) : nat :=
  List.length (filter (fun e => match e with
                                | ShaderJs.animationFrame_render _ => true
                                | _ => false
                                end) es).

Definition render_ticks000 (es : list Part000.Event) : nat :=
  List.length (filter (fun e => match e with
                                | Part000.animationFrame_render _ => true
                                | _ => false
                                end) es).

Definition render_ticks001 (es : list Part001.Event) : nat :=
  List.length (filter (fun e => match e with
                                | Part001.animationFrame_render _ => true
                                | _ => false
                                end) es).

(** The instance and the log of all its effects after the constructor,
    whose result is [start], and the events [es]. *)
Definition history {E : Type} (start : State * list Effect)
    (listener : E -> M unit) (es : list E) : State * list Effect :=
  (fst (deliver listener es (fst start)),
   (snd start ++ snd (deliver listener es (fst start)))%list).

(** ** Export sessions, continued *)

(** The record button shows the flag: it is disabled and carries the class
    [recording] exactly while [this.isExporting] is set. *)
Definition button_follows_flag (s : State) : Prop :=
  disabled (recordBtn s) = isExporting s /\
  recording (recordBtn s) = isExporting s.

(** The lists of chunks a log downloads, one list per download. *)
Definition downloads (l : list Effect) : list (list Blob) :=
  flat_map (fun e => match e with
                     | download _ parts _ => [parts]
                     | _ => []
                     end) l.

(** The non-empty data the recorder delivers in a list of events. *)
Definition chunks_of (es : list Part001.Event) : list Blob :=
  flat_map (fun e => match e with
                     | Part001.recorder_dataavailable data =>
                         if (0 <? String.length data)%nat then [data] else []
                     | _ => []
                     end) es.

(** The events that neither start an export nor end one with a download:
    all but the click and the recorder's [stop]. *)
Definition within_session (e : Part001.Event) : bool :=
  match e with
  | Part001.click _ => false
  | Part001.recorder_stop _ _ => false
  | _ => true
  end.


(** The page of [src/unnamed/part_001] with the speed slider moved to
    [value]. *)
Definition page001_at_speed (value : float) : State :=
  fst (run (Part001.handle_event working_gl
              (Part001.slider_input speed_slider value)) page001).

(** ** The collapsible panel *)

(** One visit of the page: the panel as the markup has it ([markup]: whether
    the class [collapsed] is written in the markup) and the stored item as
    the last visit left it, then [setupToggle()], then the clicks. *)
Definition visit000 (markup : bool) (stored : option string)
    (clicks : list Part000.PanelEvent) : Panel :=
  fold_left (fun p e => Part000.handle_panel e p) clicks
    (Part000.setupToggle {| collapsed := markup; controlsCollapsed := stored |}).

Definition visit001 (markup : bool) (stored : option string)
    (clicks : list Part001.PanelEvent) : Panel :=
  fold_left (fun p e => Part001.handle_panel e p) clicks
    (Part001.setupToggle {| collapsed := markup; controlsCollapsed := stored |}).

(** The stored item says what the class list says. *)
Definition stored_matches (p : Panel) : Prop :=
  controlsCollapsed p = Some (String_of_boolean (collapsed p)).

(** Whether the stored item is the text [true], the test of
    [setupToggle]. *)
Definition stored_true (stored : option string) : bool :=
  match stored with
  | Some v => String.eqb v "true"
  | None => false
  end.

(** During a visit either a click has stored the state of the class, or
    the panel and the stored item are as [setupToggle] left them. *)
Definition visiting (markup : bool) (stored : option string) (p : Panel) :
    Prop :=
  stored_matches p \/
  (collapsed p = markup || stored_true stored /\ controlsCollapsed p = stored).


(** * The shader templater *)

Ltac templated_by_evaluation v :=
  unfold templated; destruct v;
  (split; [ vm_compute; reflexivity | ]);
  (split; [ vm_compute; reflexivity | ]);
  (split; [ vm_compute; reflexivity | ]);
  (split; [ vm_compute; reflexivity | ]);
  (intros w Hw; destruct w; try (exfalso; apply Hw; reflexivity);
   vm_compute; reflexivity).

Lemma templated_ShaderJs (v : Variation) :
  templated ShaderJs.header ShaderJs.footer ShaderJs.body
    ShaderJs.generateFragmentShader v.
Proof. templated_by_evaluation v. Qed.

Lemma templated_Part000 (v : Variation) :
  templated Part000.header Part000.footer Part000.body
    Part000.generateFragmentShader v.
Proof. templated_by_evaluation v. Qed.

Lemma templated_Part001 (v : Variation) :
  templated Part001.header Part001.footer Part001.body
    Part001.generateFragmentShader v.
Proof. templated_by_evaluation v. Qed.

(** C2. For each of the five variation tags the templater of every file
    returns the shared header, the body of that tag and the shared footer
    in a row; the header and the footer occur exactly once in the output,
    the body of the tag occurs in it, and the body of no other tag does
    (the bodies share lines, so it is the body as a block that is absent). *)
Theorem generateFragmentShader_templated (v : Variation) :
  templated ShaderJs.header ShaderJs.footer ShaderJs.body
    ShaderJs.generateFragmentShader v /\
  templated Part000.header Part000.footer Part000.body
    Part000.generateFragmentShader v /\
  templated Part001.header Part001.footer Part001.body
    Part001.generateFragmentShader v.
Proof.
  split; [ apply templated_ShaderJs | split ];
    [ apply templated_Part000 | apply templated_Part001 ].
Qed.

Lemma unknown_tag_eqb (v : string) (w : Variation) :
  unknown_tag v -> String.eqb v (tag w) = false.
Proof.
  intros H. apply String.eqb_neq. apply H.
Qed.

(** With no case label matching, the [switch] reaches [default]. *)
Ltac reach_default H v :=
  rewrite (unknown_tag_eqb v rocaille H : String.eqb v "rocaille" = false),
    (unknown_tag_eqb v liquid H : String.eqb v "liquid" = false),
    (unknown_tag_eqb v electric H : String.eqb v "electric" = false),
    (unknown_tag_eqb v kaleidoscope H : String.eqb v "kaleidoscope" = false),
    (unknown_tag_eqb v alien H : String.eqb v "alien" = false);
  cbv [or_string String.eqb append]; reflexivity.

Lemma ShaderJs_default (v : string) :
  unknown_tag v ->
  ShaderJs.generateFragmentShader v = ShaderJs.header ++ ShaderJs.footer.
Proof.
  intros H. unfold ShaderJs.generateFragmentShader. reach_default H v.
Qed.

Lemma Part000_default (v : string) :
  unknown_tag v ->
  Part000.generateFragmentShader v = Part000.header ++ Part000.footer.
Proof.
  intros H. unfold Part000.generateFragmentShader. reach_default H v.
Qed.

Lemma Part001_default (v : string) :
  unknown_tag v ->
  Part001.generateFragmentShader v = Part001.header ++ Part001.footer.
Proof.
  intros H. unfold Part001.generateFragmentShader. reach_default H v.
Qed.

(** C3. For every string that is none of the five variation tags the
    templater of every file returns a value, and that value is the shared
    header followed at once by the shared footer: the body is empty. *)
Theorem generateFragmentShader_unknown (v : string) :
  unknown_tag v ->
  ShaderJs.generateFragmentShader v = ShaderJs.header ++ ShaderJs.footer /\
  Part000.generateFragmentShader v = Part000.header ++ Part000.footer /\
  Part001.generateFragmentShader v = Part001.header ++ Part001.footer.
Proof.
  intros H.
  split; [ apply ShaderJs_default, H | split ];
    [ apply Part000_default, H | apply Part001_default, H ].
Qed.

Lemma generateFragmentShader_unknown_witness :
  ShaderJs.generateFragmentShader "plasma"
    = ShaderJs.header ++ ShaderJs.footer /\
  Part000.generateFragmentShader "plasma"
    = Part000.header ++ Part000.footer /\
  Part001.generateFragmentShader "plasma"
    = Part001.header ++ Part001.footer.
Proof.
  apply (generateFragmentShader_unknown "plasma").
  intros w; destruct w; discriminate.
Defined.

(** An input is one of the five case labels or none of them. *)
Lemma tag_cases (v : string) :
  (exists w : Variation, v = tag w) \/ unknown_tag v.
Proof.
  destruct (String.eqb_spec v (tag rocaille)); [ left; eauto | ].
  destruct (String.eqb_spec v (tag liquid)); [ left; eauto | ].
  destruct (String.eqb_spec v (tag electric)); [ left; eauto | ].
  destruct (String.eqb_spec v (tag kaleidoscope)); [ left; eauto | ].
  destruct (String.eqb_spec v (tag alien)); [ left; eauto | ].
  right. intros w; destruct w; assumption.
Qed.

Lemma length_neq (a b : string) :
  Nat.eqb (String.length a) (String.length b) = false -> a <> b.
Proof.
  intros H E; subst b. rewrite Nat.eqb_refl in H. discriminate.
Qed.

(** C10. The templaters of the two export files return the same text for
    every input string, known tag or not; the templater of [src/shader.js]
    has another footer and returns a different text for every input. *)
Theorem generateFragmentShader_parts_equal (v : string) :
  Part000.generateFragmentShader v = Part001.generateFragmentShader v /\
  ShaderJs.footer <> Part001.footer /\
  ShaderJs.generateFragmentShader v <> Part001.generateFragmentShader v.
Proof.
  destruct (tag_cases v) as [[w ->] | H].
  - split; [ destruct w; vm_compute; reflexivity | split ].
    + apply length_neq. vm_compute. reflexivity.
    + destruct w; apply length_neq; vm_compute; reflexivity.
  - rewrite (ShaderJs_default v H), (Part000_default v H),
      (Part001_default v H).
    split; [ vm_compute; reflexivity | split ];
      apply length_neq; vm_compute; reflexivity.
Qed.

(** * Numbers *)

(** [x < y] excludes [y <= x] on binary64 values (NaN compares with
    nothing). *)
Lemma SFcompare_Lt_swap (x y : spec_float) :
  SFcompare x y = Some Lt -> SFcompare y x = Some Gt.
Proof.
  destruct x as [sx | sx | | sx mx ex], y as [sy | sy | | sy my ey];
    cbn; try discriminate; try (destruct sx; discriminate);
    try (destruct sy; discriminate);
    try (destruct sx, sy; (discriminate || reflexivity)).
  assert (A : Pos.compare_cont Eq my mx
              = CompOpp (Pos.compare_cont Eq mx my))
    by (symmetry; apply (Pos.compare_cont_antisym mx my Eq)).
  rewrite (Z.compare_antisym ex ey), A.
  destruct sx, sy; try discriminate; try reflexivity;
    destruct (ex ?= ey)%Z; cbn; try discriminate; try reflexivity;
    destruct (Pos.compare_cont Eq mx my); cbn; discriminate || reflexivity.
Qed.

Lemma ltb_leb_false (x y : float) :
  (x <? y)%float = true -> (y <=? x)%float = false.
Proof.
  rewrite FloatAxioms.ltb_spec, FloatAxioms.leb_spec. unfold SFltb, SFleb.
  destruct (SFcompare (Prim2SF x) (Prim2SF y)) as [[ | | ] | ] eqn:E;
    try discriminate.
  intros _. rewrite (SFcompare_Lt_swap _ _ E). reflexivity.
Qed.

(** A finite Number subtracted from itself leaves [+0]. *)
Lemma sub_diag_finite (x : float) :
  finite x = true -> (x - x)%float = 0%float.
Proof.
  unfold finite. intros H.
  apply Prim2SF_inj. rewrite FloatAxioms.sub_spec.
  destruct (Prim2SF x) as [s | s | | s m e]; try discriminate.
  - destruct s; reflexivity.
  - unfold SF64sub, SFsub. rewrite Z.sub_diag. reflexivity.
Qed.

Lemma frameIndex_shift (k : nat) (c : float) :
  frameIndex k (c + 1)%float = frameIndex (S k) c.
Proof.
  induction k as [ | k IH]; [ reflexivity | ].
  cbn [frameIndex] in *. now rewrite IH.
Qed.

Lemma counts_agree_spec (n : nat) : forall (k : Z) (c : float),
  counts_agree n k c = true ->
  forall i, (i < n)%nat -> frameIndex i c = integral false (k + Z.of_nat i)%Z.
Proof.
  induction n as [ | n IH]; intros k c H i Hi; [ lia | ].
  cbn [counts_agree] in H. apply andb_true_iff in H as [H0 H1].
  apply FloatAxioms.Leibniz.eqb_spec in H0.
  destruct i as [ | i].
  - cbn [frameIndex]. now rewrite Z.add_0_r.
  - rewrite <- frameIndex_shift, (IH _ _ H1 i) by lia.
    f_equal. lia.
Qed.

Lemma counts_agree_to_limit : counts_agree (S frame_limit) 0 0 = true.
Proof. vm_compute. reflexivity. Qed.

(** Up to a million increments of zero the frame counter is the Number of
    its increments (binary64 adds one exactly up to 2^53). *)
Lemma frameIndex_of_nat (k : nat) :
  (k <= frame_limit)%nat -> frameIndex k 0 = of_nat k.
Proof.
  intros H. unfold of_nat.
  apply (counts_agree_spec (S frame_limit) 0 0 counts_agree_to_limit k). lia.
Qed.

(** Over the real numbers too, one loop at 60 frames per second lies
    strictly between 376 and 377 frames at speed 1 and between 188 and 189
    frames at speed 2: the ceilings 377 and 189 of [startExport] are those of
    the exact products, not artefacts of rounding. *)
Lemma PI_bounds : (3134 / 1000 < PI < 31416 / 10000)%R.
Proof.
  split.
  - destruct (PI_2_3_7_ineq 0) as [L _].
    unfold sum_f_R0, tg_alt, PI_2_3_7_tg, Ratan_seq in L. simpl in L. lra.
  - destruct (PI_2_3_7_ineq 2) as [_ U].
    unfold sum_f_R0, tg_alt, PI_2_3_7_tg, Ratan_seq in U. simpl in U. lra.
Qed.

Lemma loop_frames_real :
  (376 < loopDurationR 1 * 60 < 377)%R /\
  (188 < loopDurationR 2 * 60 < 189)%R.
Proof.
  unfold loopDurationR. pose proof PI_bounds. lra.
Qed.

(** * The export controller *)

(** A state given by its fields. *)
Ltac open_state s :=
  destruct s as
    [params_ startTime_ program_ uniforms_ positionBuffer_ canvas_width_
     canvas_height_ isExporting_ exportFrameCount_ currentFrame_ capturer_
     exportTime_ exportDuration_ mediaRecorder_ recordedChunks_ recordBtn_
     recordText_ recordInfo_ nextObject_].

(** Evaluation of a method on a state given by its fields. *)
Ltac exec :=
  cbv -[Math_round Math_ceil Math_PI Part000.generateFragmentShader
        Part001.generateFragmentShader ShaderJs.generateFragmentShader
        Part000.vertexShaderSource Part001.vertexShaderSource
        ShaderJs.vertexShaderSource or_string String.length Nat.ltb negb].

Ltac exec_in H :=
  cbv -[Math_round Math_ceil Math_PI Part000.generateFragmentShader
        Part001.generateFragmentShader ShaderJs.generateFragmentShader
        Part000.vertexShaderSource Part001.vertexShaderSource
        ShaderJs.vertexShaderSource or_string String.length Nat.ltb negb] in H.

(** Evaluation through the status tests of [buildShader]. *)
Ltac exec_statuses :=
  exec;
  repeat (match goal with
          | |- context [negb ?b] =>
              lazymatch b with
              | true => fail
              | false => fail
              | _ => destruct b
              end
          end; cbn [negb]; exec).

Lemma iTime_writes_app (l1 l2 : list Effect) :
  iTime_writes (l1 ++ l2) = (iTime_writes l1 ++ iTime_writes l2)%list.
Proof.
  induction l1 as [ | e l1 IH]; [ reflexivity | ].
  destruct e as [c | | | | | | | | | | | | | | | ]; cbn; try apply IH.
  destruct c; cbn; try apply IH.
  destruct u; cbn; try apply IH. now rewrite IH.
Qed.

Lemma map_seq_shift {A : Type} (f : nat -> A) (n : nat) :
  map f (seq 1 n) = map (fun k => f (S k)) (seq 0 n).
Proof.
  rewrite <- seq_shift, map_map. reflexivity.
Qed.

(** ** Sessions of either file

    What the two export drivers share: ambient events keep the session and
    write no time, and the capturing event, below the total, writes the
    frame counter over 60 and increments the counter. *)

Section Session.
Variable E : Type.
Variable listener : E -> M unit.
Variable ambient : E -> bool.
Variable capture : E.

Hypothesis ambient_event : forall (e : E) (s : State),
  ambient e = true -> isExporting s = true ->
  same_session s (fst (run (listener e) s)) /\
  iTime_writes (snd (run (listener e) s)) = [].

Hypothesis capture_frame : forall s : State,
  (exportFrameCount s <=? currentFrame s)%float = false ->
  same_session
    (set_currentFrame (currentFrame s + 1)%float s)
    (fst (run (listener capture) s)) /\
  iTime_writes (snd (run (listener capture) s)) = [(currentFrame s / 60)%float].

Lemma deliver_app (es1 es2 : list E) (s : State) :
  deliver listener (es1 ++ es2) s =
  let '(s1, l1) := deliver listener es1 s in
  let '(s2, l2) := deliver listener es2 s1 in
  (s2, (l1 ++ l2)%list).
Proof.
  revert s. induction es1 as [ | e es1 IH]; intros s; cbn [app deliver].
  - destruct (deliver listener es2 s). reflexivity.
  - destruct (run (listener e) s) as [s1 l1].
    rewrite IH.
    destruct (deliver listener es1 s1) as [s2 l2].
    destruct (deliver listener es2 s2) as [s3 l3].
    now rewrite app_assoc.
Qed.

Lemma ambient_events (es : list E) (s : State) :
  forallb ambient es = true -> isExporting s = true ->
  same_session s (fst (deliver listener es s)) /\
  iTime_writes (snd (deliver listener es s)) = [].
Proof.
  revert s. induction es as [ | e es IH]; intros s A H.
  - cbn. unfold same_session. auto.
  - cbn [forallb] in A. apply andb_true_iff in A as [Ae Aes].
    destruct (ambient_event e s Ae H) as [(E1 & E2 & E3) W].
    cbn [deliver].
    destruct (run (listener e) s) as [s1 l1]. cbn [fst snd] in *.
    assert (H1 : isExporting s1 = true) by congruence.
    destruct (IH s1 Aes H1) as [(F1 & F2 & F3) V].
    destruct (deliver listener es s1) as [s2 l2]. cbn [fst snd] in *.
    split; [ unfold same_session; repeat split; congruence | ].
    now rewrite iTime_writes_app, W, V.
Qed.

(** The frames of a running session: the [k]-th capture from a state with
    frame counter [c] writes [frameIndex k c / 60], whatever arrives in
    between. *)
Lemma session_times (ticks : list (list E)) : forall s : State,
  isExporting s = true ->
  Forall (fun es => forallb ambient es = true) ticks ->
  (forall k, k < List.length ticks ->
     (exportFrameCount s <=? frameIndex k (currentFrame s))%float = false) ->
  same_session
    (set_currentFrame (frameIndex (List.length ticks) (currentFrame s)) s)
    (fst (deliver listener (session capture ticks) s)) /\
  iTime_writes (snd (deliver listener (session capture ticks) s)) =
  map (fun k => (frameIndex k (currentFrame s) / 60)%float)
    (seq 0 (List.length ticks)).
Proof.
  induction ticks as [ | es ticks IH]; intros s H A B.
  - cbn. unfold same_session. auto.
  - inversion A as [ | ? ? Aes Aticks]; subst.
    unfold session in *. cbn [flat_map].
    rewrite deliver_app, deliver_app.
    destruct (ambient_events es s Aes H) as [(E1 & E2 & E3) W].
    destruct (deliver listener es s) as [s1 l1]. cbn [fst snd] in *.
    assert (G : (exportFrameCount s1 <=? currentFrame s1)%float = false).
    { rewrite E2, E3. apply (B 0). cbn. lia. }
    destruct (capture_frame s1 G) as [(F1 & F2 & F3) V].
    cbn [deliver].
    destruct (run (listener capture) s1) as [s2 l2]. cbn [fst snd] in *.
    rewrite app_nil_r.
    cbn [isExporting exportFrameCount currentFrame set_currentFrame] in F1, F2, F3.
    assert (H2 : isExporting s2 = true) by congruence.
    assert (B2 : forall k, k < List.length ticks ->
              (exportFrameCount s2 <=? frameIndex k (currentFrame s2))%float
              = false).
    { intros k Hk. rewrite F2, F3, E2, E3, frameIndex_shift.
      apply B. cbn. lia. }
    destruct (IH s2 H2 Aticks B2) as [(I1 & I2 & I3) U].
    destruct (deliver listener (flat_map (fun es0 => (es0 ++ [capture])%list) ticks) s2)
      as [s3 l3]. cbn [fst snd] in *.
    cbn [isExporting exportFrameCount currentFrame set_currentFrame] in I1, I2, I3.
    split.
    + unfold same_session.
      cbn [isExporting exportFrameCount currentFrame set_currentFrame List.length].
      rewrite <- frameIndex_shift. repeat split; congruence.
    + rewrite !iTime_writes_app, W, V, U. cbn [app List.length seq map frameIndex].
      rewrite E3. f_equal.
      rewrite map_seq_shift. apply map_ext. intros k.
      now rewrite F3, E3, frameIndex_shift.
Qed.

End Session.

Section Sessions.
Variable gl : GLDriver.

(** ** [src/unnamed/part_001] *)

Lemma startExport001_count (s : State) (e : Part001.ExportEnv) :
  exportFrameCount (fst (run (Part001.startExport e) s)) = loopFrames s.
Proof.
  open_state s. unfold loopFrames. exec.
  match goal with
  | |- context [PrimFloat.leb ?a ?b] => destruct (PrimFloat.leb a b)
  end; reflexivity.
Qed.

(** An ambient event leaves the session as it is and writes no time. *)
Lemma ambient001_event (e : Part001.Event) (s : State) :
  ambient001 e = true -> isExporting s = true ->
  same_session s (fst (run (Part001.handle_event gl e) s)) /\
  iTime_writes (snd (run (Part001.handle_event gl e) s)) = [].
Proof.
  intros A H. unfold same_session.
  destruct e; try discriminate A; open_state s; cbn in H; subst;
    cbn [Part001.handle_event].
  - exec. auto.
  - exec. auto.
  - exec. auto.
  - unfold Part001.ondataavailable.
    destruct (0 <? String.length data)%nat; exec; auto.
  - exec. auto.
  - exec. auto.
  - destruct program_; exec_statuses; auto.
Qed.

(** A run of [captureFrames] below the total writes the frame counter
    over 60 to the time uniform and increments the counter. *)
Lemma captureFrames_frame (s : State) :
  (exportFrameCount s <=? currentFrame s)%float = false ->
  same_session
    (set_currentFrame (currentFrame s + 1)%float s)
    (fst (run (Part001.handle_event gl Part001.timeout_captureFrames) s)) /\
  iTime_writes
    (snd (run (Part001.handle_event gl Part001.timeout_captureFrames) s))
  = [(currentFrame s / 60)%float].
Proof.
  intros G. open_state s. cbn in G. unfold same_session. exec. rewrite G.
  exec. auto.
Qed.

(** ** [src/unnamed/part_000] *)

Lemma startExport000_count (s : State) (dateNow : float) :
  exportFrameCount (fst (run (Part000.startExport dateNow) s)) = loopFrames s.
Proof.
  open_state s. unfold loopFrames. exec.
  match goal with
  | |- context [PrimFloat.leb ?a ?b] => destruct (PrimFloat.leb a b)
  end; reflexivity.
Qed.

Lemma ambient000_event (e : Part000.Event) (s : State) :
  ambient000 e = true -> isExporting s = true ->
  same_session s (fst (run (Part000.handle_event gl e) s)) /\
  iTime_writes (snd (run (Part000.handle_event gl e) s)) = [].
Proof.
  intros A H. unfold same_session.
  destruct e; try discriminate A; open_state s; cbn in H; subst;
    cbn [Part000.handle_event].
  - exec. auto.
  - exec. auto.
  - exec. auto.
  - exec. auto.
  - exec. auto.
  - destruct program_; exec_statuses; auto.
Qed.

Lemma exportRender_frame (s : State) :
  (exportFrameCount s <=? currentFrame s)%float = false ->
  same_session
    (set_currentFrame (currentFrame s + 1)%float s)
    (fst (run (Part000.handle_event gl Part000.animationFrame_exportRender) s)) /\
  iTime_writes
    (snd (run (Part000.handle_event gl Part000.animationFrame_exportRender) s))
  = [(currentFrame s / 60)%float].
Proof.
  intros G. open_state s. cbn in G. unfold same_session. exec. rewrite G.
  exec. auto.
Qed.

End Sessions.

(** The click that starts a session captures frame 0 at once. *)
Lemma click001_first_frame (gl : GLDriver) (s : State) (e : Part001.ExportEnv) :
  isExporting s = false ->
  (loopFrames s <=? 0)%float = false ->
  same_session
    (set_isExporting true
       (set_exportFrameCount (loopFrames s)
          (set_currentFrame (0 + 1)%float s)))
    (fst (run (Part001.handle_event gl (Part001.click e)) s)) /\
  iTime_writes (snd (run (Part001.handle_event gl (Part001.click e)) s))
  = [(0 / 60)%float].
Proof.
  intros H G. open_state s. cbn in H; subst. unfold loopFrames in *.
  unfold same_session. exec. exec_in G. rewrite G. exec. auto.
Qed.

Lemma click000_first_frame (gl : GLDriver) (s : State) (dateNow : float) :
  isExporting s = false ->
  (loopFrames s <=? 0)%float = false ->
  same_session
    (set_isExporting true
       (set_exportFrameCount (loopFrames s)
          (set_currentFrame (0 + 1)%float s)))
    (fst (run (Part000.handle_event gl (Part000.click dateNow)) s)) /\
  iTime_writes (snd (run (Part000.handle_event gl (Part000.click dateNow)) s))
  = [(0 / 60)%float].
Proof.
  intros H G. open_state s. cbn in H; subst. unfold loopFrames in *.
  unfold same_session. exec. exec_in G. rewrite G. exec. auto.
Qed.

(** A whole session of either file, from the click on an idle page. *)
Lemma started_session_times (E : Type) (listener : E -> M unit)
    (ambient : E -> bool) (start capture : E) (s : State)
    (ticks : list (list E)) :
  (forall (e : E) (s : State),
     ambient e = true -> isExporting s = true ->
     same_session s (fst (run (listener e) s)) /\
     iTime_writes (snd (run (listener e) s)) = []) ->
  (forall s : State,
     (exportFrameCount s <=? currentFrame s)%float = false ->
     same_session (set_currentFrame (currentFrame s + 1)%float s)
       (fst (run (listener capture) s)) /\
     iTime_writes (snd (run (listener capture) s))
     = [(currentFrame s / 60)%float]) ->
  ((loopFrames s <=? 0)%float = false ->
   same_session
     (set_isExporting true
        (set_exportFrameCount (loopFrames s)
           (set_currentFrame (0 + 1)%float s)))
     (fst (run (listener start) s)) /\
   iTime_writes (snd (run (listener start) s)) = [(0 / 60)%float]) ->
  Forall (fun es => forallb ambient es = true) ticks ->
  (forall k, k <= List.length ticks ->
     (frameIndex k 0 <? loopFrames s)%float = true) ->
  iTime_writes (snd (deliver listener (start :: session capture ticks) s))
  = map (fun k => (frameIndex k 0 / 60)%float)
      (seq 0 (S (List.length ticks))).
Proof.
  intros Hamb Hcap Hstart A B.
  assert (G0 : (loopFrames s <=? 0)%float = false).
  { apply ltb_leb_false. apply (B 0). lia. }
  destruct (Hstart G0) as [(E1 & E2 & E3) W].
  cbn [deliver].
  destruct (run (listener start) s) as [s1 l1]. cbn [fst snd] in *.
  cbn [isExporting exportFrameCount currentFrame set_isExporting
       set_exportFrameCount set_currentFrame] in E1, E2, E3.
  assert (B1 : forall k, k < List.length ticks ->
            (exportFrameCount s1 <=? frameIndex k (currentFrame s1))%float
            = false).
  { intros k Hk. rewrite E2, E3, frameIndex_shift.
    apply ltb_leb_false, B. lia. }
  destruct (session_times E listener ambient capture Hamb Hcap ticks s1 E1 A B1)
    as [_ U].
  destruct (deliver listener (session capture ticks) s1) as [s2 l2].
  cbn [fst snd] in *.
  rewrite iTime_writes_app, W, U. cbn [app seq map frameIndex]. f_equal.
  rewrite map_seq_shift. apply map_ext. intros k.
  now rewrite E3, frameIndex_shift.
Qed.

Lemma map_frameIndex_of_nat (n : nat) :
  n <= frame_limit ->
  map (fun k => (frameIndex k 0 / 60)%float) (seq 0 (S n))
  = map (fun k => (of_nat k / 60)%float) (seq 0 (S n)).
Proof.
  intros H. apply map_ext_in. intros k Hk. apply in_seq in Hk.
  rewrite frameIndex_of_nat by lia. reflexivity.
Qed.

(** C4. In an export session of either file, started by a click on an
    idle page, the time written to the time uniform for frame [k] is the
    frame counter after [k] increments of zero, divided by 60, for every
    frame below the total; up to a million frames that counter is the
    number [k] itself.  The times are the same whatever the start mark of the
    state and whatever arrives between two captures: ticks of the live
    driver at any clock reading, clicks, resizes, slider and variation
    changes, recorded data. *)
Theorem export_frame_times (gl : GLDriver) (s : State)
    (e : Part001.ExportEnv) (dateNow : float)
    (ticks : list (list Part001.Event)) (ticks' : list (list Part000.Event)) :
  isExporting s = false ->
  Forall (fun es => forallb ambient001 es = true) ticks ->
  Forall (fun es => forallb ambient000 es = true) ticks' ->
  (forall k, k <= List.length ticks ->
     (frameIndex k 0 <? loopFrames s)%float = true) ->
  (forall k, k <= List.length ticks' ->
     (frameIndex k 0 <? loopFrames s)%float = true) ->
  let written :=
    iTime_writes
      (snd (deliver (Part001.handle_event gl)
              (Part001.click e
                 :: session Part001.timeout_captureFrames ticks) s)) in
  let written' :=
    iTime_writes
      (snd (deliver (Part000.handle_event gl)
              (Part000.click dateNow
                 :: session Part000.animationFrame_exportRender ticks') s)) in
  written = map (fun k => (frameIndex k 0 / 60)%float)
              (seq 0 (S (List.length ticks))) /\
  written' = map (fun k => (frameIndex k 0 / 60)%float)
               (seq 0 (S (List.length ticks'))) /\
  (List.length ticks <= frame_limit ->
   written = map (fun k => (of_nat k / 60)%float)
               (seq 0 (S (List.length ticks)))) /\
  (List.length ticks' <= frame_limit ->
   written' = map (fun k => (of_nat k / 60)%float)
                (seq 0 (S (List.length ticks')))).
Proof.
  intros H A A' B B' written written'.
  assert (W : written = map (fun k => (frameIndex k 0 / 60)%float)
                          (seq 0 (S (List.length ticks)))).
  { apply (started_session_times _ _ ambient001); auto.
    - apply ambient001_event.
    - apply captureFrames_frame.
    - intros G. now apply click001_first_frame. }
  assert (W' : written' = map (fun k => (frameIndex k 0 / 60)%float)
                            (seq 0 (S (List.length ticks')))).
  { apply (started_session_times _ _ ambient000); auto.
    - apply ambient000_event.
    - apply exportRender_frame.
    - intros G. now apply click000_first_frame. }
  split; [ exact W | split; [ exact W' | split ] ]; intros L.
  - rewrite W. now apply map_frameIndex_of_nat.
  - rewrite W'. now apply map_frameIndex_of_nat.
Qed.

Lemma export_frame_times_witness :
  iTime_writes
    (snd (deliver (Part001.handle_event working_gl)
            [Part001.click env;
             Part001.animationFrame_render 40;
             Part001.timeout_captureFrames;
             Part001.slider_input speed_slider 2;
             Part001.animationFrame_render 9000;
             Part001.timeout_captureFrames] page001))
  = [(0 / 60)%float; (1 / 60)%float; (2 / 60)%float] /\
  iTime_writes
    (snd (deliver (Part000.handle_event working_gl)
            [Part000.click 1700000000000;
             Part000.animationFrame_render 40;
             Part000.animationFrame_exportRender;
             Part000.window_resize 1024 768;
             Part000.variation_change "alien";
             Part000.animationFrame_exportRender] page000))
  = [(0 / 60)%float; (1 / 60)%float; (2 / 60)%float].
Proof.
  assert (F : forall k, k <= 2 ->
            (frameIndex k 0 <? loopFrames page001)%float = true).
  { intros k Hk.
    destruct k as [ | [ | [ | k ] ] ]; [ vm_compute; reflexivity .. | lia ]. }
  assert (F' : forall k, k <= 2 ->
            (frameIndex k 0 <? loopFrames page000)%float = true).
  { intros k Hk.
    destruct k as [ | [ | [ | k ] ] ]; [ vm_compute; reflexivity .. | lia ]. }
  split.
  - refine (proj1 (export_frame_times working_gl page001 env 1700000000000
              [[Part001.animationFrame_render 40];
               [Part001.slider_input speed_slider 2;
                Part001.animationFrame_render 9000]]
              [[]; []] _ _ _ F F)).
    + vm_compute. reflexivity.
    + repeat constructor.
    + repeat constructor.
  - refine (proj1 (proj2 (export_frame_times working_gl page000 env
              1700000000000
              [[]; []]
              [[Part000.animationFrame_render 40];
               [Part000.window_resize 1024 768;
                Part000.variation_change "alien"]] _ _ _ F' F'))).
    + vm_compute. reflexivity.
    + repeat constructor.
    + repeat constructor.
Defined.

(** C1. When an export starts, either file sets the total frame count to
    the ceiling of the loop duration [2 * Math.PI / speed] times 60; with
    the speed slider at 1 that is 377 frames, with the slider at 2 it is 189
    frames. *)
Theorem startExport_frame_count (s : State) (e : Part001.ExportEnv)
    (dateNow : float) :
  let at_speed x := set_params (set_param speed_slider x (params s)) s in
  exportFrameCount (fst (run (Part001.startExport e) s))
    = Math_ceil (2 * Math_PI / speed (params s) * 60)%float /\
  exportFrameCount (fst (run (Part000.startExport dateNow) s))
    = Math_ceil (2 * Math_PI / speed (params s) * 60)%float /\
  exportFrameCount (fst (run (Part001.startExport e) (at_speed 1%float)))
    = 377%float /\
  exportFrameCount (fst (run (Part000.startExport dateNow) (at_speed 1%float)))
    = 377%float /\
  exportFrameCount (fst (run (Part001.startExport e) (at_speed 2%float)))
    = 189%float /\
  exportFrameCount (fst (run (Part000.startExport dateNow) (at_speed 2%float)))
    = 189%float.
Proof.
  intros at_speed. unfold at_speed.
  rewrite !startExport001_count, !startExport000_count.
  unfold loopFrames. cbn [params speed set_params set_param].
  split; [ reflexivity | ].
  split; [ reflexivity | ].
  split; [ vm_compute; reflexivity | ].
  split; [ vm_compute; reflexivity | ].
  split; vm_compute; reflexivity.
Qed.

(** The count the spec gives for speed 1 fails on the page as built, whose
    speed is 1: the count is 377 and not 378. *)
Lemma startExport_frame_count_not_378 :
  speed (params page001) = 1%float /\
  exportFrameCount (fst (run (Part001.startExport env) page001)) = 377%float /\
  exportFrameCount (fst (run (Part000.startExport 0) page000)) = 377%float /\
  exportFrameCount (fst (run (Part001.startExport env) page001)) <> 378%float /\
  exportFrameCount (fst (run (Part000.startExport 0) page000)) <> 378%float.
Proof.
  split; [ vm_compute; reflexivity | ].
  split; [ vm_compute; reflexivity | ].
  split; [ vm_compute; reflexivity | ].
  split; intros E.
  - assert (F : (exportFrameCount
                   (fst (run (Part001.startExport env) page001))
                 =? 378)%float = true) by (rewrite E; vm_compute; reflexivity).
    vm_compute in F. discriminate F.
  - assert (F : (exportFrameCount
                   (fst (run (Part000.startExport 0) page000))
                 =? 378)%float = true) by (rewrite E; vm_compute; reflexivity).
    vm_compute in F. discriminate F.
Qed.

(** C5. While the exporting flag is set, a click on the record button
    changes nothing in either file: the state after the listener is the
    state before it, field for field, and the listener has no effect on the
    browser (no recorder, no capturer, no timer, no draw). *)
Theorem click_while_exporting (s : State) (e : Part001.ExportEnv)
    (dateNow : float) :
  isExporting s = true ->
  run (Part001.recordBtn_click e) s = (s, []) /\
  run (Part000.recordBtn_click dateNow) s = (s, []).
Proof.
  intros H.
  unfold Part001.recordBtn_click, Part000.recordBtn_click, run, bind, this.
  rewrite H. split; reflexivity.
Qed.

Lemma click_while_exporting_witness :
  let s := fst (run (Part001.startExport env) page001) in
  let s' := fst (run (Part000.startExport 0) page000) in
  isExporting s = true /\ isExporting s' = true /\
  run (Part001.recordBtn_click env) s = (s, []) /\
  run (Part000.recordBtn_click 1700000000000) s' = (s', []).
Proof.
  intros s s'.
  assert (H : isExporting s = true) by (vm_compute; reflexivity).
  assert (H' : isExporting s' = true) by (vm_compute; reflexivity).
  split; [ exact H | split; [ exact H' | split ] ].
  - exact (proj1 (click_while_exporting s env 1700000000000 H)).
  - exact (proj2 (click_while_exporting s' env 1700000000000 H')).
Defined.

(** C7. While the exporting flag is set, a tick of the live driver of
    either file only reschedules itself: the state is unchanged and the one
    effect is the [requestAnimationFrame] of [render], so the tick writes no
    uniform and draws nothing. *)
Theorem render_while_exporting (s : State) (now : float) :
  isExporting s = true ->
  run (Part001.render now) s = (s, [requestAnimationFrame CbRender]) /\
  run (Part000.render now) s = (s, [requestAnimationFrame CbRender]) /\
  filter draws_or_writes (snd (run (Part001.render now) s)) = [] /\
  filter draws_or_writes (snd (run (Part000.render now) s)) = [].
Proof.
  intros H.
  unfold Part001.render, Part000.render, run, bind, this.
  rewrite H. repeat split; reflexivity.
Qed.

Lemma render_while_exporting_witness :
  let s := fst (run (Part001.startExport env) page001) in
  let s' := fst (run (Part000.startExport 0) page000) in
  isExporting s = true /\ isExporting s' = true /\
  run (Part001.render 5000) s = (s, [requestAnimationFrame CbRender]) /\
  run (Part000.render 5000) s' = (s', [requestAnimationFrame CbRender]).
Proof.
  intros s s'.
  assert (H : isExporting s = true) by (vm_compute; reflexivity).
  assert (H' : isExporting s' = true) by (vm_compute; reflexivity).
  split; [ exact H | split; [ exact H' | split ] ].
  - exact (proj1 (render_while_exporting s 5000 H)).
  - exact (proj1 (proj2 (render_while_exporting s' 5000 H'))).
Defined.

Lemma elapsed_zero (now : float) :
  finite now = true -> ((now - now) / 1000)%float = 0%float.
Proof.
  intros F. rewrite (sub_diag_finite now F). vm_compute. reflexivity.
Qed.

(** C6. Finalization of an export sets the start mark of the live driver
    to the clock reading [now] of that moment and clears the exporting flag:
    in [src/unnamed/part_001] within [finishExport], in
    [src/unnamed/part_000] in the function [finishExport] schedules 500 ms
    later.  The live driver then draws again, with the time elapsed since
    [now]; on a tick at the reading [now] itself that time is zero. *)
Theorem finishExport_restores_start_mark (s : State) (dateNow now t : float) :
  finite now = true ->
  let s1 := fst (run (Part001.finishExport dateNow now) s) in
  let s0 := fst (run (Part000.exportDone now)
                   (fst (run Part000.finishExport s))) in
  (startTime s1 = now /\ isExporting s1 = false /\
   iTime_writes (snd (run (Part001.render t) s1)) = [((t - now) / 1000)%float] /\
   iTime_writes (snd (run (Part001.render now) s1)) = [0%float]) /\
  (snd (run Part000.finishExport s)
     = [capturer_stop (capturer s); capturer_save (capturer s);
        setTimeout CbExportDone 500] /\
   startTime s0 = now /\ isExporting s0 = false /\
   iTime_writes (snd (run (Part000.render t) s0)) = [((t - now) / 1000)%float] /\
   iTime_writes (snd (run (Part000.render now) s0)) = [0%float]).
Proof.
  intros F s1 s0. subst s1 s0. open_state s. exec.
  rewrite (elapsed_zero now F). repeat split.
Qed.

Lemma finishExport_restores_start_mark_witness :
  let s := fst (run (Part001.startExport env) page001) in
  let s' := fst (run (Part000.startExport 0) page000) in
  let s1 := fst (run (Part001.finishExport 1700000000000 6400) s) in
  let s0 := fst (run (Part000.exportDone 6400)
                   (fst (run Part000.finishExport s'))) in
  finite 6400 = true /\
  (startTime s1 = 6400%float /\ isExporting s1 = false /\
   iTime_writes (snd (run (Part001.render 6416) s1))
   = [((6416 - 6400) / 1000)%float]) /\
  (startTime s0 = 6400%float /\ isExporting s0 = false /\
   iTime_writes (snd (run (Part000.render 6416) s0))
   = [((6416 - 6400) / 1000)%float]).
Proof.
  intros s s' s1 s0.
  assert (F : finite 6400 = true) by (vm_compute; reflexivity).
  pose proof (finishExport_restores_start_mark s 1700000000000 6400 6416 F)
    as [(A & B & C & _) _].
  pose proof (finishExport_restores_start_mark s' 1700000000000 6400 6416 F)
    as [_ (_ & A' & B' & C' & _)].
  split; [ exact F | split ].
  - split; [ exact A | split; [ exact B | exact C ] ].
  - split; [ exact A' | split; [ exact B' | exact C' ] ].
Defined.

(** C8, the divergence.  On the page of [src/unnamed/part_001] an export
    is started and the recorder reports an error.  [onerror] clears the
    flag, re-enables the button and shows the message, and that is all it
    does.  It cancels nothing: the timer of [captureFrames] fires next, draws
    a frame, requests it from the track, writes the progress over the
    message and schedules itself again.  It discards nothing: the data the
    recorder delivers as it shuts down is pushed to [recordedChunks], and its
    [stop] event runs [finishExport], which downloads a file made of that
    data and reports a complete download. *)
Theorem onerror_keeps_the_session_running :
  let failed :=
    fst (deliver (Part001.handle_event working_gl)
           [Part001.click env;
            Part001.recorder_error (Some "encoder failed")] page001) in
  let next :=
    run (Part001.handle_event working_gl Part001.timeout_captureFrames)
      failed in
  let stopped :=
    deliver (Part001.handle_event working_gl)
      [Part001.recorder_dataavailable "partial";
       Part001.recorder_stop 1700000000000 6400] failed in
  (isExporting failed = false /\
   recordBtn failed = {| recording := false; disabled := false |} /\
   recordText failed = [Str "Export failed"] /\
   textContent (recordInfo failed) = [Str "encoder failed"]) /\
  (In (GL (drawArrays 0 4)) (snd next) /\
   In track_requestFrame (snd next) /\
   In (setTimeout CbCaptureFrames (1000 / 60)%float) (snd next) /\
   recordText (fst next) = [Str "Recording "; Num 1; Str "%"]) /\
  (In (download
         [Str "shader_"; Str "rocaille"; Str "_"; Num 1700000000000;
          Str ".webm"]
         ["partial"] "video/webm")
      (snd stopped) /\
   textContent (recordInfo (fst stopped)) = [Str "Download complete!"]).
Proof.
  vm_compute. intuition.
Qed.

(** * Further properties of the drivers *)

(** X1. After a resize to [width] by [height] the next draw of the live driver
    writes that size to the resolution uniform, in every file. *)
Theorem resize_then_render (s : State) (width height now : float) :
  isExporting s = false ->
  resolution_writes
    (snd (run (resize width height ;; ShaderJs.render now) s))
  = [(width, height)] /\
  resolution_writes
    (snd (run (resize width height ;; Part000.render now) s))
  = [(width, height)] /\
  resolution_writes
    (snd (run (resize width height ;; Part001.render now) s))
  = [(width, height)].
Proof.
  intros H. open_state s. cbn in H; subst. exec. auto.
Qed.

Lemma resize_then_render_witness :
  resolution_writes
    (snd (run (resize 1024 768 ;; Part001.render 32) page001))
  = [(1024, 768)%float].
Proof.
  refine (proj2 (proj2 (resize_then_render page001 1024 768 32 _))).
  vm_compute. reflexivity.
Defined.


(** * The pipeline binder *)

Ltac settle_rebuild :=
  split;
  [ intros p' [= <-] || intros p' [=]; eexists; reflexivity
  | intros [F | [F | F]]; try discriminate F;
    (split; [ reflexivity | ]); (split; [ reflexivity | ]);
    (split; [ reflexivity | ]);
    (split;
     [ intros [G | G]; try discriminate G; reflexivity
     | intros G G'; try discriminate G; try discriminate G'; reflexivity ]) ].

Lemma ShaderJs_rebuild (gl : GLDriver) :
  rebuilds_without_rollback gl ShaderJs.vertexShaderSource
    ShaderJs.generateFragmentShader (ShaderJs.buildShader gl).
Proof.
  intros variation s r. subst r. unfold build_fails.
  open_state s. destruct program_; exec_statuses; settle_rebuild.
Qed.

Lemma Part000_rebuild (gl : GLDriver) :
  rebuilds_without_rollback gl Part000.vertexShaderSource
    Part000.generateFragmentShader (Part000.buildShader gl).
Proof.
  intros variation s r. subst r. unfold build_fails.
  open_state s. destruct program_; exec_statuses; settle_rebuild.
Qed.

Lemma Part001_rebuild (gl : GLDriver) :
  rebuilds_without_rollback gl Part001.vertexShaderSource
    Part001.generateFragmentShader (Part001.buildShader gl).
Proof.
  intros variation s r. subst r. unfold build_fails.
  open_state s. destruct program_; exec_statuses; settle_rebuild.
Qed.

(** C9. In every file, [buildShader] deletes the program of the instance
    before it compiles anything, and when a compile or the link fails it
    returns after the diagnostic without a call of [gl.useProgram] and
    without an assignment to [this.uniforms]; the previous pipeline is not
    restored. *)
Theorem buildShader_without_rollback (gl : GLDriver) :
  rebuilds_without_rollback gl ShaderJs.vertexShaderSource
    ShaderJs.generateFragmentShader (ShaderJs.buildShader gl) /\
  rebuilds_without_rollback gl Part000.vertexShaderSource
    Part000.generateFragmentShader (Part000.buildShader gl) /\
  rebuilds_without_rollback gl Part001.vertexShaderSource
    Part001.generateFragmentShader (Part001.buildShader gl).
Proof.
  split; [ apply ShaderJs_rebuild | split ];
    [ apply Part000_rebuild | apply Part001_rebuild ].
Qed.

Lemma buildShader_without_rollback_witness :
  let r := run (Part001.buildShader unlinking_gl "liquid") page001 in
  build_fails unlinking_gl Part001.vertexShaderSource
    (Part001.generateFragmentShader "liquid") /\
  program page001 = Some 3 /\
  (exists l, snd r = GL (deleteProgram 3) :: l) /\
  existsb reports (snd r) = true /\
  existsb installs (snd r) = false /\
  uniforms (fst r) = uniforms page001.
Proof.
  intros r.
  assert (B : build_fails unlinking_gl Part001.vertexShaderSource
                (Part001.generateFragmentShader "liquid"))
    by (right; right; reflexivity).
  assert (P : program page001 = Some 3) by (vm_compute; reflexivity).
  destruct (proj2 (proj2 (buildShader_without_rollback unlinking_gl))
              "liquid" page001) as [D Fl].
  destruct (Fl B) as (R & I & U & _ & _).
  split; [ exact B | ]. split; [ exact P | ].
  split; [ exact (D 3 P) | ].
  split; [ exact R | ]. split; [ exact I | exact U ].
Defined.

(** * Further properties: the shader sources *)

Lemma prefix_app (pat a b : string) :
  String.prefix pat a = true -> String.prefix pat (a ++ b) = true.
Proof.
  revert a. induction pat as [ | c pat IH]; intros a H.
  - destruct (a ++ b); reflexivity.
  - destruct a as [ | d a]; [ discriminate H | ].
    cbn in *. destruct (Ascii.ascii_dec c d); [ | discriminate H ].
    now apply IH.
Qed.

Lemma includes_app (pat a b : string) :
  includes pat a = true -> includes pat (a ++ b) = true.
Proof.
  induction a as [ | d a IH]; intros H.
  - cbn in H. rewrite orb_false_r in H.
    destruct pat; [ destruct b; reflexivity | discriminate H ].
  - cbn [includes] in H. apply orb_true_iff in H as [H | H].
    + change (String d a ++ b) with (String d (a ++ b)) in *.
      cbn [includes]. apply orb_true_iff. left.
      exact (prefix_app pat (String d a) b H).
    + cbn [append includes]. apply orb_true_iff. right. now apply IH.
Qed.

Ltac by_tag v :=
  let w := fresh "w" in
  let H := fresh "H" in
  destruct (tag_cases v) as [[w ->] | H];
  [ destruct w
  | rewrite ?(ShaderJs_default v H), ?(Part000_default v H),
      ?(Part001_default v H) ].

(** X2. Every uniform is written once by each draw, through the call
    whose number of components is that of its declaration, and that
    declaration stands in the source the templater of the file returns for
    any input: [vec2] for the resolution, written by [gl.uniform2f], and
    [float] for the seven others, written by [gl.uniform1f]. *)
Theorem uniforms_declared_as_written (v : string) (u : UniformName)
    (s : State) (t : float) :
  exists n : nat,
    (written_components u (snd (run (ShaderJs.render t) s)) = [n] /\
     includes (declaration (uniform_name u) n)
       (ShaderJs.generateFragmentShader v) = true) /\
    (written_components u (snd (run (Part000.draw t) s)) = [n] /\
     includes (declaration (uniform_name u) n)
       (Part000.generateFragmentShader v) = true) /\
    (written_components u (snd (run (Part001.draw t) s)) = [n] /\
     includes (declaration (uniform_name u) n)
       (Part001.generateFragmentShader v) = true).
Proof.
  exists (match u with iResolution => 2 | _ => 1 end).
  assert (D : includes
                (declaration (uniform_name u)
                   (match u with iResolution => 2 | _ => 1 end))
                ShaderJs.header = true /\
              includes
                (declaration (uniform_name u)
                   (match u with iResolution => 2 | _ => 1 end))
                Part000.header = true /\
              includes
                (declaration (uniform_name u)
                   (match u with iResolution => 2 | _ => 1 end))
                Part001.header = true).
  { destruct u; (split; [ | split ]); vm_compute; reflexivity. }
  destruct D as (D1 & D2 & D3).
  split; [ | split ]; (split; [ destruct u; reflexivity | ]).
  - unfold ShaderJs.generateFragmentShader. cbv zeta.
    now apply includes_app.
  - unfold Part000.generateFragmentShader. cbv zeta.
    now apply includes_app.
  - unfold Part001.generateFragmentShader. cbv zeta.
    now apply includes_app.
Qed.

(** X3. For every input string, known tag or not, the source the
    templater of every file returns has the frame of a fragment shader:
    the version directive is its first line, [main] is defined once, braces
    and parentheses nest properly, and the text ends with the closing brace
    of [main]. *)
Theorem generateFragmentShader_framed (v : string) :
  framed (ShaderJs.generateFragmentShader v) = true /\
  framed (Part000.generateFragmentShader v) = true /\
  framed (Part001.generateFragmentShader v) = true.
Proof.
  by_tag v; (split; [ | split ]); vm_compute; reflexivity.
Qed.

Lemma eqb_false_neq (a b : string) : String.eqb a b = false -> a <> b.
Proof.
  intros H E. subst b. rewrite String.eqb_refl in H. discriminate H.
Qed.

Ltac distinct_sources :=
  match goal with
  | |- ?a = ?b -> _ =>
      let E := fresh "E" in
      intros E; exfalso; revert E; apply eqb_false_neq;
      vm_compute; reflexivity
  end.

(** X4. The templater of every file tells the five variation tags apart:
    two tags with the same source are the same tag, and the source of a
    tag is never the source of an unknown input. *)
Theorem generateFragmentShader_injective (v w : Variation) :
  (ShaderJs.generateFragmentShader (tag v)
     = ShaderJs.generateFragmentShader (tag w) -> v = w) /\
  (Part000.generateFragmentShader (tag v)
     = Part000.generateFragmentShader (tag w) -> v = w) /\
  (Part001.generateFragmentShader (tag v)
     = Part001.generateFragmentShader (tag w) -> v = w) /\
  ShaderJs.generateFragmentShader (tag v)
    <> ShaderJs.header ++ ShaderJs.footer /\
  Part000.generateFragmentShader (tag v)
    <> Part000.header ++ Part000.footer /\
  Part001.generateFragmentShader (tag v)
    <> Part001.header ++ Part001.footer.
Proof.
  split; [ | split; [ | split; [ | split; [ | split ] ] ] ].
  1-3: destruct v, w; try (intros _; reflexivity); distinct_sources.
  all: destruct v; apply eqb_false_neq; vm_compute; reflexivity.
Qed.

(** * Further properties: invariants of the event loop *)

(** A property of the instance and of the log of all its effects that
    every event keeps holds after any list of events. *)
Section Reachable.
Variable E : Type.
Variable listener : E -> M unit.
Variable I : State -> list Effect -> Prop.

Hypothesis step : forall (e : E) (s : State) (l : list Effect),
  I s l ->
  I (fst (run (listener e) s)) (l ++ snd (run (listener e) s))%list.

Lemma deliver_keeps (es : list E) : forall (s : State) (l : list Effect),
  I s l ->
  I (fst (deliver listener es s)) (l ++ snd (deliver listener es s))%list.
Proof.
  induction es as [ | e es IH]; intros s l H.
  - cbn. now rewrite app_nil_r.
  - cbn [deliver]. pose proof (step e s l H) as H1.
    destruct (run (listener e) s) as [s1 l1]. cbn [fst snd] in H1.
    pose proof (IH s1 _ H1) as H2.
    destruct (deliver listener es s1) as [s2 l2]. cbn [fst snd] in *.
    now rewrite app_assoc.
Qed.

End Reachable.

(** Evaluation that leaves list membership and removal folded. *)
Ltac exec_log :=
  cbv -[Math_round Math_ceil Math_PI Part000.generateFragmentShader
        Part001.generateFragmentShader ShaderJs.generateFragmentShader
        Part000.vertexShaderSource Part001.vertexShaderSource
        ShaderJs.vertexShaderSource or_string String.length Nat.ltb
        In remove Nat.eq_dec live_programs program_in_use option_map
        COMPILE_STATUS LINK_STATUS getUniformLocation getAttribLocation
        getShaderInfoLog getProgramInfoLog].

(** The outcomes of the two compiles and of the link of [buildShader]. *)
Ltac case_statuses gl vs fs :=
  destruct (COMPILE_STATUS gl VERTEX_SHADER vs) eqn:?;
  destruct (COMPILE_STATUS gl FRAGMENT_SHADER fs) eqn:?;
  destruct (LINK_STATUS gl vs fs) eqn:?.

Lemma live_programs_app (l l' : list Effect) :
  live_programs (l ++ l') = fold_left track_program l' (live_programs l).
Proof. apply fold_left_app. Qed.

Lemma program_in_use_app (l l' : list Effect) :
  program_in_use (l ++ l') = fold_left track_use l' (program_in_use l).
Proof. apply fold_left_app. Qed.

(** What is alive after a deletion was alive before and is another
    program. *)
Ltac settle_live :=
  repeat match goal with
         | H : In _ (_ :: _) |- _ => destruct H as [H | H]
         | H : In _ (remove Nat.eq_dec _ _) |- _ => apply in_remove in H
         | H : _ /\ _ |- _ => destruct H
         | H : In _ [] |- _ => destruct H
         end;
  subst; try reflexivity;
  try match goal with
      | A : forall p, In p ?alive -> _ = Some p, H : In ?q ?alive |- _ =>
          pose proof (A q H) as ?; congruence
      end.

Lemma ShaderJs_owns (gl : GLDriver) (e : ShaderJs.Event) (s : State)
    (l : list Effect) :
  owns_live_programs s l ->
  owns_live_programs (fst (run (ShaderJs.handle_event gl e) s))
    (l ++ snd (run (ShaderJs.handle_event gl e) s)).
Proof.
  unfold owns_live_programs. rewrite live_programs_app.
  generalize (live_programs l) as alive. intros alive A.
  destruct e; open_state s; cbn [program] in A;
    [ exec_log; exact A .. | ].
  unfold ShaderJs.handle_event, ShaderJs.buildShader.
  case_statuses gl ShaderJs.vertexShaderSource
    (ShaderJs.generateFragmentShader value);
    destruct program_; exec_log; intros p H; settle_live.
Qed.

(** The tests a method is stuck on, one after the other. *)
Ltac split_tests :=
  repeat (match goal with
          | |- context [if ?c then _ else _] => destruct c
          end; exec_log).

Lemma Part000_owns (gl : GLDriver) (e : Part000.Event) (s : State)
    (l : list Effect) :
  owns_live_programs s l ->
  owns_live_programs (fst (run (Part000.handle_event gl e) s))
    (l ++ snd (run (Part000.handle_event gl e) s)).
Proof.
  unfold owns_live_programs. rewrite live_programs_app.
  generalize (live_programs l) as alive. intros alive A.
  destruct e; open_state s; cbn [program] in A;
    [ exec_log; split_tests; exact A .. | ].
  unfold Part000.handle_event, Part000.buildShader.
  case_statuses gl Part000.vertexShaderSource
    (Part000.generateFragmentShader value);
    destruct program_; exec_log; intros p H; settle_live.
Qed.

Lemma Part001_owns (gl : GLDriver) (e : Part001.Event) (s : State)
    (l : list Effect) :
  owns_live_programs s l ->
  owns_live_programs (fst (run (Part001.handle_event gl e) s))
    (l ++ snd (run (Part001.handle_event gl e) s)).
Proof.
  unfold owns_live_programs. rewrite live_programs_app.
  generalize (live_programs l) as alive. intros alive A.
  destruct e; open_state s; cbn [program] in A;
    [ exec_log; split_tests; exact A .. | ].
  unfold Part001.handle_event, Part001.buildShader.
  case_statuses gl Part001.vertexShaderSource
    (Part001.generateFragmentShader value);
    destruct program_; exec_log; intros p H; settle_live.
Qed.

Lemma constructors_own (gl : GLDriver) (now width height now' : float) :
  owns_live_programs
    (fst (ShaderJs.new_ShaderPlayground gl now width height now'))
    (snd (ShaderJs.new_ShaderPlayground gl now width height now')) /\
  owns_live_programs
    (fst (Part000.new_ShaderPlayground gl now width height now'))
    (snd (Part000.new_ShaderPlayground gl now width height now')) /\
  owns_live_programs
    (fst (Part001.new_ShaderPlayground gl now width height now'))
    (snd (Part001.new_ShaderPlayground gl now width height now')).
Proof.
  unfold owns_live_programs, live_programs.
  split; [ | split ].
  - exec_log.
    case_statuses gl ShaderJs.vertexShaderSource
      (ShaderJs.generateFragmentShader "rocaille");
      exec_log; intros p H; settle_live.
  - exec_log.
    case_statuses gl Part000.vertexShaderSource
      (Part000.generateFragmentShader "rocaille");
      exec_log; intros p H; settle_live.
  - exec_log.
    case_statuses gl Part001.vertexShaderSource
      (Part001.generateFragmentShader "rocaille");
      exec_log; intros p H; settle_live.
Qed.

(** X5. At every moment, whatever the WebGL implementation answers and
    whatever events arrive after the constructor, every program that was
    created and not deleted is [this.program]: at most one program is
    alive, in every file. *)
Theorem at_most_one_live_program (gl : GLDriver)
    (now width height now' : float)
    (es : list ShaderJs.Event) (es0 : list Part000.Event)
    (es1 : list Part001.Event) :
  let r := history (ShaderJs.new_ShaderPlayground gl now width height now')
             (ShaderJs.handle_event gl) es in
  let r0 := history (Part000.new_ShaderPlayground gl now width height now')
              (Part000.handle_event gl) es0 in
  let r1 := history (Part001.new_ShaderPlayground gl now width height now')
              (Part001.handle_event gl) es1 in
  owns_live_programs (fst r) (snd r) /\
  owns_live_programs (fst r0) (snd r0) /\
  owns_live_programs (fst r1) (snd r1) /\
  (forall p q, In p (live_programs (snd r)) -> In q (live_programs (snd r)) ->
     p = q) /\
  (forall p q, In p (live_programs (snd r0)) ->
     In q (live_programs (snd r0)) -> p = q) /\
  (forall p q, In p (live_programs (snd r1)) ->
     In q (live_programs (snd r1)) -> p = q).
Proof.
  intros r r0 r1.
  destruct (constructors_own gl now width height now') as (B & B0 & B1).
  assert (O : owns_live_programs (fst r) (snd r)).
  { apply (deliver_keeps _ _ owns_live_programs (ShaderJs_owns gl)), B. }
  assert (O0 : owns_live_programs (fst r0) (snd r0)).
  { apply (deliver_keeps _ _ owns_live_programs (Part000_owns gl)), B0. }
  assert (O1 : owns_live_programs (fst r1) (snd r1)).
  { apply (deliver_keeps _ _ owns_live_programs (Part001_owns gl)), B1. }
  split; [ exact O | split; [ exact O0 | split; [ exact O1 | ] ] ].
  split; [ | split ]; intros p q Hp Hq.
  - pose proof (O p Hp). pose proof (O q Hq). congruence.
  - pose proof (O0 p Hp). pose proof (O0 q Hq). congruence.
  - pose proof (O1 p Hp). pose proof (O1 q Hq). congruence.
Qed.

(** After a build that succeeded, the locations cached are those of the
    program just installed. *)
Ltac settle_bound :=
  match goal with
  | A : _ /\ _ |- _ => destruct A as [? ?]
  end;
  split;
  [ try reflexivity; try assumption
  | let u := fresh "u" in
    let h := fresh "h" in
    let i := fresh "i" in
    let U := fresh "U" in
    intros u h i U;
    first
      [ match goal with
        | A : forall u h i, _ -> _ |- _ => exact (A u h i U)
        end
      | match type of U with
        | option_map _ ?o = _ => destruct o; cbn in U; congruence
        end ] ].

Ltac accept_all Hacc :=
  rewrite ?(proj1 Hacc), ?(proj2 Hacc).

(** An implementation that accepts everything reports no failure. *)
Ltac refuted_by Hacc :=
  try match goal with
      | F : _ = false |- _ =>
          first [ rewrite (proj1 Hacc) in F | rewrite (proj2 Hacc) in F ];
          discriminate F
      end.

Ltac settle_built :=
  split;
  [ reflexivity
  | let u := fresh "u" in
    let h := fresh "h" in
    let i := fresh "i" in
    let U := fresh "U" in
    intros u h i U;
    match type of U with
    | option_map _ ?o = _ => destruct o; cbn in U; congruence
    end ].

Lemma ShaderJs_bound (gl : GLDriver) (e : ShaderJs.Event) (s : State)
    (l : list Effect) :
  accepts_all gl ->
  bound s l ->
  bound (fst (run (ShaderJs.handle_event gl e) s))
    (l ++ snd (run (ShaderJs.handle_event gl e) s)).
Proof.
  intros Hacc. unfold bound. rewrite program_in_use_app.
  generalize (program_in_use l) as current. intros current A.
  destruct e; open_state s; cbn [program uniforms] in A;
    [ exec_log; split_tests; exact A .. | ].
  unfold ShaderJs.handle_event, ShaderJs.buildShader. accept_all Hacc.
  destruct program_; exec_log; settle_bound.
Qed.

Lemma Part000_bound (gl : GLDriver) (e : Part000.Event) (s : State)
    (l : list Effect) :
  accepts_all gl ->
  bound s l ->
  bound (fst (run (Part000.handle_event gl e) s))
    (l ++ snd (run (Part000.handle_event gl e) s)).
Proof.
  intros Hacc. unfold bound. rewrite program_in_use_app.
  generalize (program_in_use l) as current. intros current A.
  destruct e; open_state s; cbn [program uniforms] in A;
    [ exec_log; split_tests; exact A .. | ].
  unfold Part000.handle_event, Part000.buildShader. accept_all Hacc.
  destruct program_; exec_log; settle_bound.
Qed.

Lemma Part001_bound (gl : GLDriver) (e : Part001.Event) (s : State)
    (l : list Effect) :
  accepts_all gl ->
  bound s l ->
  bound (fst (run (Part001.handle_event gl e) s))
    (l ++ snd (run (Part001.handle_event gl e) s)).
Proof.
  intros Hacc. unfold bound. rewrite program_in_use_app.
  generalize (program_in_use l) as current. intros current A.
  destruct e; open_state s; cbn [program uniforms] in A;
    [ exec_log; split_tests; exact A .. | ].
  unfold Part001.handle_event, Part001.buildShader. accept_all Hacc.
  destruct program_; exec_log; settle_bound.
Qed.

Lemma constructors_bound (gl : GLDriver) (now width height now' : float) :
  accepts_all gl ->
  bound (fst (ShaderJs.new_ShaderPlayground gl now width height now'))
    (snd (ShaderJs.new_ShaderPlayground gl now width height now')) /\
  bound (fst (Part000.new_ShaderPlayground gl now width height now'))
    (snd (Part000.new_ShaderPlayground gl now width height now')) /\
  bound (fst (Part001.new_ShaderPlayground gl now width height now'))
    (snd (Part001.new_ShaderPlayground gl now width height now')).
Proof.
  intros Hacc. unfold bound, program_in_use.
  split; [ | split ]; exec_log.
  - case_statuses gl ShaderJs.vertexShaderSource
      (ShaderJs.generateFragmentShader "rocaille");
      refuted_by Hacc; exec_log; settle_built.
  - case_statuses gl Part000.vertexShaderSource
      (Part000.generateFragmentShader "rocaille");
      refuted_by Hacc; exec_log; settle_built.
  - case_statuses gl Part001.vertexShaderSource
      (Part001.generateFragmentShader "rocaille");
      refuted_by Hacc; exec_log; settle_built.
Qed.

(** X6. With a WebGL implementation that compiles and links every shader,
    at every moment after the constructor [this.program] is the program the
    context has in use, and every uniform location cached in
    [this.uniforms] is a location of that program, in every file. *)
Theorem uniforms_belong_to_program_in_use (gl : GLDriver)
    (now width height now' : float)
    (es : list ShaderJs.Event) (es0 : list Part000.Event)
    (es1 : list Part001.Event) :
  accepts_all gl ->
  let r := history (ShaderJs.new_ShaderPlayground gl now width height now')
             (ShaderJs.handle_event gl) es in
  let r0 := history (Part000.new_ShaderPlayground gl now width height now')
              (Part000.handle_event gl) es0 in
  let r1 := history (Part001.new_ShaderPlayground gl now width height now')
              (Part001.handle_event gl) es1 in
  bound (fst r) (snd r) /\ bound (fst r0) (snd r0) /\ bound (fst r1) (snd r1).
Proof.
  intros Hacc r r0 r1.
  destruct (constructors_bound gl now width height now' Hacc) as (B & B0 & B1).
  split; [ | split ].
  - apply (deliver_keeps _ _ bound
             (fun e s l => ShaderJs_bound gl e s l Hacc)), B.
  - apply (deliver_keeps _ _ bound
             (fun e s l => Part000_bound gl e s l Hacc)), B0.
  - apply (deliver_keeps _ _ bound
             (fun e s l => Part001_bound gl e s l Hacc)), B1.
Qed.

Lemma working_gl_accepts_all : accepts_all working_gl.
Proof. split; reflexivity. Qed.

Lemma uniforms_belong_to_program_in_use_witness :
  let r1 := history (Part001.new_ShaderPlayground working_gl 0 800 600 16)
              (Part001.handle_event working_gl)
              [Part001.variation_change "alien";
               Part001.animationFrame_render 32;
               Part001.variation_change "liquid"] in
  accepts_all working_gl /\
  program (fst r1) = Some 9 /\
  bound (fst r1) (snd r1).
Proof.
  intros r1.
  split; [ exact working_gl_accepts_all | ].
  split; [ vm_compute; reflexivity | ].
  exact (proj2 (proj2
    (uniforms_belong_to_program_in_use working_gl 0 800 600 16 [] []
       [Part001.variation_change "alien";
        Part001.animationFrame_render 32;
        Part001.variation_change "liquid"] working_gl_accepts_all))).
Defined.

(** * Further properties: the frame drivers *)

Lemma render_requests_app (l l' : list Effect) :
  render_requests (l ++ l') = render_requests l + render_requests l'.
Proof.
  unfold render_requests. now rewrite filter_app, length_app.
Qed.

(** A run of [render] asks for one next run; no other listener asks for
    any. *)
Section RenderLoop.
Variable E : Type.
Variable listener : E -> M unit.
Variable is_tick : E -> bool.

Hypothesis answer : forall (e : E) (s : State),
  render_requests (snd (run (listener e) s)) = if is_tick e then 1 else 0.

Lemma requests_follow_ticks (es : list E) : forall s : State,
  render_requests (snd (deliver listener es s))
  = List.length (filter is_tick es).
Proof.
  induction es as [ | e es IH]; intros s; [ reflexivity | ].
  cbn [deliver filter]. pose proof (answer e s) as A.
  destruct (run (listener e) s) as [s1 l1]. cbn [fst snd] in A.
  specialize (IH s1).
  destruct (deliver listener es s1) as [s2 l2]. cbn [fst snd] in *.
  rewrite render_requests_app, A, IH.
  destruct (is_tick e); reflexivity.
Qed.

End RenderLoop.

Ltac count_requests :=
  unfold render_requests; exec_log; split_tests; reflexivity.

Lemma ShaderJs_answers (gl : GLDriver) (e : ShaderJs.Event) (s : State) :
  render_requests (snd (run (ShaderJs.handle_event gl e) s))
  = if match e with
       | ShaderJs.animationFrame_render _ => true
       | _ => false
       end then 1 else 0.
Proof.
  destruct e; open_state s;
    [ count_requests .. | ].
  unfold ShaderJs.handle_event, ShaderJs.buildShader.
  case_statuses gl ShaderJs.vertexShaderSource
    (ShaderJs.generateFragmentShader value);
    destruct program_; count_requests.
Qed.

Lemma Part000_answers (gl : GLDriver) (e : Part000.Event) (s : State) :
  render_requests (snd (run (Part000.handle_event gl e) s))
  = if match e with
       | Part000.animationFrame_render _ => true
       | _ => false
       end then 1 else 0.
Proof.
  destruct e; open_state s;
    [ count_requests .. | ].
  unfold Part000.handle_event, Part000.buildShader.
  case_statuses gl Part000.vertexShaderSource
    (Part000.generateFragmentShader value);
    destruct program_; count_requests.
Qed.

Lemma Part001_answers (gl : GLDriver) (e : Part001.Event) (s : State) :
  render_requests (snd (run (Part001.handle_event gl e) s))
  = if match e with
       | Part001.animationFrame_render _ => true
       | _ => false
       end then 1 else 0.
Proof.
  destruct e; open_state s;
    [ count_requests .. | ].
  unfold Part001.handle_event, Part001.buildShader.
  case_statuses gl Part001.vertexShaderSource
    (Part001.generateFragmentShader value);
    destruct program_; count_requests.
Qed.

(** X7. The live loop is one loop: the constructor asks for one run of
    [render], and after any events, whatever the WebGL implementation
    answers, the runs asked for are one more than the runs delivered.  Each
    run of [render], drawing or idle during an export, asks for exactly one
    next run, and no other listener asks for any. *)
Theorem one_render_loop (gl : GLDriver) (now width height now' : float)
    (es : list ShaderJs.Event) (es0 : list Part000.Event)
    (es1 : list Part001.Event) :
  render_requests
    (snd (history (ShaderJs.new_ShaderPlayground gl now width height now')
            (ShaderJs.handle_event gl) es))
  = 1 + render_ticks_js es /\
  render_requests
    (snd (history (Part000.new_ShaderPlayground gl now width height now')
            (Part000.handle_event gl) es0))
  = 1 + render_ticks000 es0 /\
  render_requests
    (snd (history (Part001.new_ShaderPlayground gl now width height now')
            (Part001.handle_event gl) es1))
  = 1 + render_ticks001 es1.
Proof.
  unfold history. cbn [snd]. rewrite !render_requests_app.
  rewrite (requests_follow_ticks _ _ _ (ShaderJs_answers gl)),
    (requests_follow_ticks _ _ _ (Part000_answers gl)),
    (requests_follow_ticks _ _ _ (Part001_answers gl)).
  unfold render_ticks_js, render_ticks000, render_ticks001.
  split; [ | split ]; f_equal.
  - unfold render_requests. exec_log.
    case_statuses gl ShaderJs.vertexShaderSource
      (ShaderJs.generateFragmentShader "rocaille"); reflexivity.
  - unfold render_requests. exec_log.
    case_statuses gl Part000.vertexShaderSource
      (Part000.generateFragmentShader "rocaille"); reflexivity.
  - unfold render_requests. exec_log.
    case_statuses gl Part001.vertexShaderSource
      (Part001.generateFragmentShader "rocaille"); reflexivity.
Qed.

(** X8. The value a slider sets reaches the shader with the next draw of
    the live driver: after an input of [x] on the slider [k], the next run
    of [render] writes [x] to the uniform of [k] and to every other slider's
    uniform the parameter the instance held, in every file. *)
Theorem slider_reaches_next_draw (gl : GLDriver) (s : State)
    (k k' : Slider) (x now : float) :
  isExporting s = false ->
  let expected := [if Slider_eqb k k' then x else param_of k' (params s)] in
  uniform1f_writes (uniform_of k')
    (snd (deliver (ShaderJs.handle_event gl)
            [ShaderJs.slider_input k x; ShaderJs.animationFrame_render now] s))
  = expected /\
  uniform1f_writes (uniform_of k')
    (snd (deliver (Part000.handle_event gl)
            [Part000.slider_input k x; Part000.animationFrame_render now] s))
  = expected /\
  uniform1f_writes (uniform_of k')
    (snd (deliver (Part001.handle_event gl)
            [Part001.slider_input k x; Part001.animationFrame_render now] s))
  = expected.
Proof.
  intros H expected. subst expected. open_state s. cbn in H. subst.
  destruct params_. destruct k, k'; exec_log; auto.
Qed.

Lemma slider_reaches_next_draw_witness :
  uniform1f_writes iZoom
    (snd (deliver (Part001.handle_event working_gl)
            [Part001.slider_input zoom_slider 2;
             Part001.animationFrame_render 48] page001))
  = [2%float] /\
  uniform1f_writes iSpeed
    (snd (deliver (Part001.handle_event working_gl)
            [Part001.slider_input zoom_slider 2;
             Part001.animationFrame_render 48] page001))
  = [1%float].
Proof.
  split.
  - refine (proj2 (proj2 (slider_reaches_next_draw working_gl page001
              zoom_slider zoom_slider 2 48 _))).
    vm_compute. reflexivity.
  - refine (proj2 (proj2 (slider_reaches_next_draw working_gl page001
              zoom_slider speed_slider 2 48 _))).
    vm_compute. reflexivity.
Defined.

(** X9. During an export the sliders still reach the shader, and the
    total stays as it was computed at the start: after an input of [x] on
    the slider [k], the next frame captured is drawn with [x] in the uniform
    of [k], while [exportFrameCount] is unchanged.  A change of speed in
    mid-export so changes the animation of the later frames and not the
    number of frames. *)
Theorem slider_reaches_next_capture (gl : GLDriver) (s : State)
    (k k' : Slider) (x : float) :
  (exportFrameCount s <=? currentFrame s)%float = false ->
  let expected := [if Slider_eqb k k' then x else param_of k' (params s)] in
  let r0 := deliver (Part000.handle_event gl)
              [Part000.slider_input k x;
               Part000.animationFrame_exportRender] s in
  let r1 := deliver (Part001.handle_event gl)
              [Part001.slider_input k x; Part001.timeout_captureFrames] s in
  (uniform1f_writes (uniform_of k') (snd r0) = expected /\
   exportFrameCount (fst r0) = exportFrameCount s) /\
  (uniform1f_writes (uniform_of k') (snd r1) = expected /\
   exportFrameCount (fst r1) = exportFrameCount s).
Proof.
  intros G expected r0 r1. subst expected r0 r1. open_state s. cbn in G.
  destruct params_.
  destruct k, k'; exec_log; rewrite G; exec_log; auto.
Qed.

Lemma slider_reaches_next_capture_witness :
  let s := fst (run (Part001.startExport env) page001) in
  let r1 := deliver (Part001.handle_event working_gl)
              [Part001.slider_input speed_slider 2;
               Part001.timeout_captureFrames] s in
  uniform1f_writes iSpeed (snd r1) = [2%float] /\
  exportFrameCount (fst r1) = 377%float.
Proof.
  intros s r1.
  assert (G : (exportFrameCount s <=? currentFrame s)%float = false)
    by (vm_compute; reflexivity).
  destruct (proj2 (slider_reaches_next_capture working_gl s
                     speed_slider speed_slider 2 G)) as [W T].
  split; [ exact W | ].
  refine (eq_trans T _). vm_compute. reflexivity.
Defined.

(** * Further properties: the export controller *)

Lemma Part000_button (gl : GLDriver) (e : Part000.Event) (s : State)
    (l : list Effect) :
  button_follows_flag s ->
  button_follows_flag (fst (run (Part000.handle_event gl e) s)).
Proof.
  unfold button_follows_flag. intros A.
  destruct e; open_state s; destruct recordBtn_ as [rec_ dis_];
    cbn [disabled recording recordBtn isExporting] in A;
    [ exec_log; split_tests; (exact A || (split; reflexivity)) .. | ].
  unfold Part000.handle_event, Part000.buildShader.
  case_statuses gl Part000.vertexShaderSource
    (Part000.generateFragmentShader value);
    destruct program_; exec_log; exact A.
Qed.

Lemma Part001_button (gl : GLDriver) (e : Part001.Event) (s : State)
    (l : list Effect) :
  button_follows_flag s ->
  button_follows_flag (fst (run (Part001.handle_event gl e) s)).
Proof.
  unfold button_follows_flag. intros A.
  destruct e; open_state s; destruct recordBtn_ as [rec_ dis_];
    cbn [disabled recording recordBtn isExporting] in A;
    [ exec_log; split_tests; (exact A || (split; reflexivity)) .. | ].
  unfold Part001.handle_event, Part001.buildShader.
  case_statuses gl Part001.vertexShaderSource
    (Part001.generateFragmentShader value);
    destruct program_; exec_log; exact A.
Qed.

(** X10. In both export files the record button follows the flag: at
    every moment after the constructor, whatever events arrive and whatever
    the WebGL implementation answers, the button is disabled and carries the
    class [recording] exactly when [this.isExporting] is set. *)
Theorem record_button_follows_flag (gl : GLDriver)
    (now width height now' : float)
    (es0 : list Part000.Event) (es1 : list Part001.Event) :
  button_follows_flag
    (fst (history (Part000.new_ShaderPlayground gl now width height now')
            (Part000.handle_event gl) es0)) /\
  button_follows_flag
    (fst (history (Part001.new_ShaderPlayground gl now width height now')
            (Part001.handle_event gl) es1)).
Proof.
  split.
  - apply (deliver_keeps _ _ (fun s _ => button_follows_flag s)
             (Part000_button gl) es0 _ []).
    unfold button_follows_flag. exec_log.
    case_statuses gl Part000.vertexShaderSource
      (Part000.generateFragmentShader "rocaille"); split; reflexivity.
  - apply (deliver_keeps _ _ (fun s _ => button_follows_flag s)
             (Part001_button gl) es1 _ []).
    unfold button_follows_flag. exec_log.
    case_statuses gl Part001.vertexShaderSource
      (Part001.generateFragmentShader "rocaille"); split; reflexivity.
Qed.


(** The draws of a running session: one for each capture below the total,
    none for what arrives in between. *)
Section SessionDraws.
Variable E : Type.
Variable listener : E -> M unit.
Variable ambient : E -> bool.
Variable capture : E.

Hypothesis ambient_draws : forall (e : E) (s : State),
  ambient e = true -> isExporting s = true ->
  same_session s (fst (run (listener e) s)) /\
  draw_calls (snd (run (listener e) s)) = 0.

Hypothesis capture_draws : forall s : State,
  (exportFrameCount s <=? currentFrame s)%float = false ->
  same_session
    (set_currentFrame (currentFrame s + 1)%float s)
    (fst (run (listener capture) s)) /\
  draw_calls (snd (run (listener capture) s)) = 1.




End SessionDraws.

Section FrameDraws.
Variable gl : GLDriver.







End FrameDraws.







(** X13. With a total that is not positive (a negative speed, for one)
    an export ends before its first frame.  The click on an idle page draws
    nothing and sets the flag; in [src/unnamed/part_001] the recorder is
    created, started and stopped within the click, in
    [src/unnamed/part_000] the capture is started, stopped and saved and the
    500 ms timer that ends the session is set; neither asks for a further
    frame. *)
Theorem export_without_frames (gl : GLDriver) (s : State)
    (e : Part001.ExportEnv) (dateNow : float) :
  isExporting s = false ->
  (loopFrames s <=? 0)%float = true ->
  let r1 := run (Part001.handle_event gl (Part001.click e)) s in
  let r0 := run (Part000.handle_event gl (Part000.click dateNow)) s in
  (isExporting (fst r1) = true /\
   draw_calls (snd r1) = 0 /\
   In (mediaRecorder_start (mediaRecorder (fst r1))) (snd r1) /\
   last (snd r1) track_requestFrame
   = mediaRecorder_stop (mediaRecorder (fst r1)) /\
   ~ In (setTimeout CbCaptureFrames (1000 / 60)) (snd r1)) /\
  (isExporting (fst r0) = true /\
   draw_calls (snd r0) = 0 /\
   In (capturer_start (capturer (fst r0))) (snd r0) /\
   In (capturer_save (capturer (fst r0))) (snd r0) /\
   last (snd r0) track_requestFrame = setTimeout CbExportDone 500 /\
   ~ In (requestAnimationFrame CbExportRender) (snd r0)).
Proof.
  intros H G r1 r0. subst r1 r0.
  open_state s. cbn in H; subst. unfold loopFrames in G.
  split.
  - exec. exec_in G. rewrite G. exec.
    repeat (split; [ tauto || reflexivity | ]).
    intros [F | [F | [F | [F | [ ] ] ] ] ]; discriminate F.
  - exec. exec_in G. rewrite G. exec.
    repeat (split; [ tauto || reflexivity | ]).
    intros [F | [F | [F | [F | [F | [ ] ] ] ] ] ]; discriminate F.
Qed.

Lemma export_without_frames_witness :
  let r1 := run (Part001.handle_event working_gl (Part001.click env))
              (page001_at_speed (-1)) in
  isExporting (fst r1) = true /\
  draw_calls (snd r1) = 0 /\
  In (mediaRecorder_start (mediaRecorder (fst r1))) (snd r1) /\
  last (snd r1) track_requestFrame
  = mediaRecorder_stop (mediaRecorder (fst r1)) /\
  ~ In (setTimeout CbCaptureFrames (1000 / 60)) (snd r1).
Proof.
  refine (proj1 (export_without_frames working_gl (page001_at_speed (-1))
                   env 1700000000000 _ _)).
  - vm_compute. reflexivity.
  - vm_compute. reflexivity.
Defined.

(** ** The recorded chunks of [src/unnamed/part_001] *)

Lemma downloads_app (l l' : list Effect) :
  downloads (l ++ l') = (downloads l ++ downloads l')%list.
Proof. apply flat_map_app. Qed.

(** An event within a session downloads nothing and adds to the chunks the
    data it carries. *)
Lemma within_session_chunks (gl : GLDriver) (e : Part001.Event) (s : State) :
  within_session e = true ->
  recordedChunks (fst (run (Part001.handle_event gl e) s))
  = (recordedChunks s ++ chunks_of [e])%list /\
  downloads (snd (run (Part001.handle_event gl e) s)) = [].
Proof.
  intros W.
  destruct e; try discriminate W; open_state s.
  - exec_log. split_tests; (split; [ symmetry; apply app_nil_r | reflexivity ]).
  - exec_log. split_tests; (split; [ symmetry; apply app_nil_r | reflexivity ]).
  - exec_log. split; [ symmetry; apply app_nil_r | reflexivity ].
  - cbn [Part001.handle_event chunks_of flat_map].
    unfold Part001.ondataavailable.
    destruct (0 <? String.length data)%nat; exec_log;
      (split; [ reflexivity || (symmetry; apply app_nil_r) | reflexivity ]).
  - exec_log. split; [ symmetry; apply app_nil_r | reflexivity ].
  - exec_log. split; [ symmetry; apply app_nil_r | reflexivity ].
  - exec_log. split; [ symmetry; apply app_nil_r | reflexivity ].
  - unfold Part001.handle_event, Part001.buildShader.
    case_statuses gl Part001.vertexShaderSource
      (Part001.generateFragmentShader value);
      destruct program_; exec_log;
      (split; [ symmetry; apply app_nil_r | reflexivity ]).
Qed.

Lemma within_session_events (gl : GLDriver) (es : list Part001.Event) :
  forall s : State,
  forallb within_session es = true ->
  recordedChunks (fst (deliver (Part001.handle_event gl) es s))
  = (recordedChunks s ++ chunks_of es)%list /\
  downloads (snd (deliver (Part001.handle_event gl) es s)) = [].
Proof.
  induction es as [ | e es IH]; intros s W.
  - cbn. split; [ symmetry; apply app_nil_r | reflexivity ].
  - cbn [forallb] in W. apply andb_true_iff in W as [We Wes].
    destruct (within_session_chunks gl e s We) as [C D].
    cbn [deliver].
    destruct (run (Part001.handle_event gl e) s) as [s1 l1].
    cbn [fst snd] in *.
    destruct (IH s1 Wes) as [C' D'].
    destruct (deliver (Part001.handle_event gl) es s1) as [s2 l2].
    cbn [fst snd] in *.
    split.
    + rewrite C', C. change (e :: es) with ([e] ++ es)%list.
      unfold chunks_of. rewrite flat_map_app. now rewrite app_assoc.
    + now rewrite downloads_app, D, D'.
Qed.

Lemma click_clears_chunks (gl : GLDriver) (s : State)
    (e : Part001.ExportEnv) :
  isExporting s = false ->
  recordedChunks (fst (run (Part001.handle_event gl (Part001.click e)) s))
  = [] /\
  downloads (snd (run (Part001.handle_event gl (Part001.click e)) s)) = [].
Proof.
  intros H. open_state s. cbn in H; subst.
  exec_log. split_tests; split; reflexivity.
Qed.

Lemma stop_downloads_chunks (gl : GLDriver) (s : State)
    (dateNow now : float) :
  recordedChunks
    (fst (run (Part001.handle_event gl (Part001.recorder_stop dateNow now)) s))
  = [] /\
  downloads
    (snd (run (Part001.handle_event gl (Part001.recorder_stop dateNow now)) s))
  = [recordedChunks s].
Proof.
  open_state s. exec_log. split; reflexivity.
Qed.

(** X14. The file an export of [src/unnamed/part_001] downloads holds
    the recorded data of that export and nothing else.  From a click on an
    idle page to the recorder's [stop], whatever arrives in between apart
    from further clicks (capture ticks, live ticks, slider and variation
    changes, resizes, even the recorder's [error]), there is one download;
    its parts are the non-empty data the recorder delivered since the click,
    in the order of delivery, whatever chunks an earlier export left behind;
    afterwards the list of chunks is empty. *)
Theorem download_holds_the_recorded_chunks (gl : GLDriver) (s : State)
    (e : Part001.ExportEnv) (es : list Part001.Event) (dateNow now : float) :
  isExporting s = false ->
  forallb within_session es = true ->
  let r := deliver (Part001.handle_event gl)
             (Part001.click e :: es ++ [Part001.recorder_stop dateNow now]) s in
  downloads (snd r) = [chunks_of es] /\
  recordedChunks (fst r) = [].
Proof.
  intros H W r. subst r.
  destruct (click_clears_chunks gl s e H) as [C0 D0].
  cbn [deliver].
  destruct (run (Part001.handle_event gl (Part001.click e)) s) as [s1 l1].
  cbn [fst snd] in *.
  rewrite deliver_app.
  destruct (within_session_events gl es s1 W) as [C1 D1].
  destruct (deliver (Part001.handle_event gl) es s1) as [s2 l2].
  cbn [fst snd] in *.
  destruct (stop_downloads_chunks gl s2 dateNow now) as [C2 D2].
  cbn [deliver].
  destruct (run (Part001.handle_event gl (Part001.recorder_stop dateNow now)) s2)
    as [s3 l3].
  cbn [fst snd] in *.
  rewrite app_nil_r, !downloads_app, D0, D1, D2, C1, C0.
  split; [ reflexivity | exact C2 ].
Qed.

Lemma download_holds_the_recorded_chunks_witness :
  let r := deliver (Part001.handle_event working_gl)
             [Part001.click env;
              Part001.recorder_dataavailable "first";
              Part001.timeout_captureFrames;
              Part001.recorder_dataavailable EmptyString;
              Part001.recorder_error None;
              Part001.recorder_dataavailable "second";
              Part001.recorder_stop 1700000000000 5000] page001 in
  downloads (snd r) = [["first"; "second"]] /\
  recordedChunks (fst r) = [].
Proof.
  refine (download_holds_the_recorded_chunks working_gl page001 env
            [Part001.recorder_dataavailable "first";
             Part001.timeout_captureFrames;
             Part001.recorder_dataavailable EmptyString;
             Part001.recorder_error None;
             Part001.recorder_dataavailable "second"]
            1700000000000 5000 _ _).
  - vm_compute. reflexivity.
  - vm_compute. reflexivity.
Defined.

(** * Further properties: the collapsible panel *)

Lemma toggle000_matches (e : Part000.PanelEvent) (p : Panel) :
  stored_matches p -> stored_matches (Part000.handle_panel e p).
Proof.
  unfold stored_matches. intros S. destruct p as [c st]. cbn in S. subst st.
  destruct e as [ | [ | ] [ | ] ]; reflexivity.
Qed.

Lemma toggle001_matches (e : Part001.PanelEvent) (p : Panel) :
  stored_matches p -> stored_matches (Part001.handle_panel e p).
Proof.
  unfold stored_matches. intros S. destruct p as [c st]. cbn in S. subst st.
  destruct e as [ | [ | ] [ | ] ]; reflexivity.
Qed.

Lemma fold_left_keeps {A B : Type} (f : A -> B -> A) (I : A -> Prop) :
  (forall a b, I a -> I (f a b)) ->
  forall (l : list B) (a : A), I a -> I (fold_left f l a).
Proof.
  intros step l. induction l as [ | b l IH]; intros a Ha; [ exact Ha | ].
  cbn [fold_left]. apply IH, step, Ha.
Qed.

Lemma stored_true_of_boolean (b : bool) :
  stored_true (Some (String_of_boolean b)) = b.
Proof. destruct b; reflexivity. Qed.

Lemma setupToggle_collapsed (markup : bool) (stored : option string) :
  let p := {| collapsed := markup; controlsCollapsed := stored |} in
  (collapsed (Part000.setupToggle p) = markup || stored_true stored /\
   controlsCollapsed (Part000.setupToggle p) = stored) /\
  (collapsed (Part001.setupToggle p) = markup || stored_true stored /\
   controlsCollapsed (Part001.setupToggle p) = stored).
Proof.
  unfold Part000.setupToggle, Part001.setupToggle.
  cbn [collapsed controlsCollapsed].
  destruct stored as [v | ]; cbn [stored_true];
    [ destruct (String.eqb v "true") | ]; destruct markup;
    repeat split; reflexivity.
Qed.

Lemma visit_restored (markup : bool) (stored : option string) (p : Panel) :
  visiting markup stored p ->
  markup || stored_true (controlsCollapsed p) = markup || collapsed p.
Proof.
  destruct p as [c st]. unfold visiting, stored_matches.
  cbn [collapsed controlsCollapsed].
  intros [M | [C S] ].
  - subst st. now rewrite stored_true_of_boolean.
  - subst c st. destruct markup, (stored_true stored); reflexivity.
Qed.

(** X15. The panel's state survives a reload of the page.  After a
    visit (the markup, the stored item of the visit before, [setupToggle()],
    then any clicks on the toggle button and on the header), the next visit
    starts collapsed exactly when the markup is collapsed or this visit ended
    collapsed: with the class absent from the markup the panel reopens as it
    was left, also when no click was made; [setupToggle] never removes the
    class, so a panel that the markup collapses starts collapsed even when
    it was left expanded.  The same in both export files. *)
Theorem panel_state_survives_reload (markup : bool) (stored : option string)
    (clicks : list Part000.PanelEvent) (clicks' : list Part001.PanelEvent) :
  collapsed (visit000 markup (controlsCollapsed (visit000 markup stored clicks))
               [])
  = markup || collapsed (visit000 markup stored clicks) /\
  collapsed (visit001 markup
               (controlsCollapsed (visit001 markup stored clicks')) [])
  = markup || collapsed (visit001 markup stored clicks').
Proof.
  destruct (setupToggle_collapsed markup stored) as [ [C0 S0] [C1 S1] ].
  split.
  - unfold visit000 at 1. cbn [fold_left].
    rewrite (proj1 (proj1 (setupToggle_collapsed markup _))).
    apply (visit_restored markup stored). unfold visit000.
    apply fold_left_keeps.
    + intros a b Ha. destruct b as [ | [ | ] [ | ] ];
        try (left; reflexivity); exact Ha.
    + right. split; assumption.
  - unfold visit001 at 1. cbn [fold_left].
    rewrite (proj1 (proj2 (setupToggle_collapsed markup _))).
    apply (visit_restored markup stored). unfold visit001.
    apply fold_left_keeps.
    + intros a b Ha. destruct b as [ | [ | ] [ | ] ];
        try (left; reflexivity); exact Ha.
    + right. split; assumption.
Qed.
